(** * call_screen_openai_tts: a call-screening pipeline

    A shallow embedding of [call_screen_openai_tts.py]: the prompt builder,
    the parsing of the classification output with its fallback, the choice
    of the spoken line, the speech synthesizer and the playback dispatch.

    Conventions.
    - A Python [str] is a [string] (its UTF-8 bytes); an [int] is a [Z]; a
      value decoded from JSON is a [pyvalue].
    - The Python runtime and the remote services the script calls
      ([json.loads], [pathlib], [platform.system], the OpenAI client,
      [subprocess], [os.startfile]) are the fields of a [Runtime]; every
      statement about the pipeline holds for every [Runtime].
    - Effects are explicit: a computation takes a [state] (the objects
      allocated so far and the trace of the effects performed so far) and
      returns an outcome, a value or a raised exception, with the new state.
    - The console is open: [print] fails only when [sys.stdout] cannot
      encode the text, with [UnicodeEncodeError].  Formatting an [int]
      fails when it has more digits than the interpreter's limit, with
      [ValueError].  Recursion depth and memory are not modelled. *)

From Stdlib Require Import String Ascii List ZArith NArith Lia Bool DecimalString.
#[local] Set Warnings "-register-all".
Import ListNotations.
Open Scope list_scope.
Open Scope string_scope.

(** ** Strings *)

(** The double-quote character, and a newline. *)
Definition dq : string := String "034"%char EmptyString.
Definition nl : string := String "010"%char EmptyString.

Definition quoted (s : string) : string := dq ++ s ++ dq.

(** [sep.join(parts)] *)
Definition join (sep : string) (parts : list string) : string :=
  String.concat sep parts.

(** [str(n)] for an [int]: the text it returns when it does not raise
    (see [int_str_raises]). *)
Definition str_of_int (n : Z) : string :=
  NilZero.string_of_int (Z.to_int n).

(** The number of decimal digits of an [int], its sign left out. *)
Definition decimal_digits (n : Z) : N :=
  N.of_nat (String.length (str_of_int (Z.abs n))).

(** Whether [str(n)] raises under [sys.get_int_max_str_digits()] equal to
    [limit]: 0 is no limit, and the interpreter accepts no other limit
    under 640. *)
Definition int_str_raises (limit : N) (n : Z) : bool :=
  match limit with
  | N0 => false
  | _ => (N.max 640 limit <? decimal_digits n)%N
  end.

(** A text of ASCII characters only. *)
Definition is_ascii (s : string) : bool :=
  forallb (fun c => (nat_of_ascii c <? 128)%nat) (list_ascii_of_string s).

(** [s in t] on strings. *)
Fixpoint contains (s t : string) : bool :=
  String.prefix s t ||
  match t with
  | EmptyString => false
  | String _ t' => contains s t'
  end.

(** [s] occurs in [t]. *)
Definition Substring (s t : string) : Prop :=
  exists before after, t = before ++ s ++ after.

(** ** Python values and exceptions *)

(** What [json.loads] can return.  A float keeps the text it was read
    from; nothing in the script computes with it. *)
Inductive pyvalue : Type :=
| PyNone
| PyBool (b : bool)
| PyInt (n : Z)
| PyFloat (literal : string)
| PyStr (s : string)
| PyList (items : list pyvalue)
| PyDict (entries : list (string * pyvalue)).

(** The exceptions the script can meet: the two it can provoke itself, and
    whatever a library or service call raises. *)
Inductive exn : Type :=
| JSONDecodeError
| AttributeError
| ReferenceError
| RaisedBy (origin : string).

(** Two exceptions of the interpreter, by name. *)
Definition UnicodeEncodeError : exn := RaisedBy "UnicodeEncodeError".
Definition ValueError : exn := RaisedBy "ValueError".

Inductive result (A : Type) : Type :=
| Ok (a : A)
| Raise (e : exn).
Arguments Ok {A} a.
Arguments Raise {A} e.

(** A dict read from JSON, in insertion order with one entry per key. *)
Fixpoint dict_lookup (key : string) (entries : list (string * pyvalue))
  : option pyvalue :=
  match entries with
  | [] => None
  | (k, v) :: rest => if (k =? key)%string then Some v else dict_lookup key rest
  end.

(** [d.get(key, default)] on a dict. *)
Definition dict_get (entries : list (string * pyvalue)) (key : string)
  (default : pyvalue) : pyvalue :=
  match dict_lookup key entries with
  | Some v => v
  | None => default
  end.

(** [d[key] = v]: an existing key keeps its place. *)
Fixpoint dict_set (key : string) (v : pyvalue)
  (entries : list (string * pyvalue)) : list (string * pyvalue) :=
  match entries with
  | [] => [(key, v)]
  | (k, w) :: rest =>
      if (k =? key)%string then (k, v) :: rest
      else (k, w) :: dict_set key v rest
  end.

(** ** The catalog *)

Definition BASE_INSTRUCTIONS : string :=
  join nl [
    "";
    "You are an AI phone call screener protecting an elderly user from scams.";
    "";
    "General behaviour:";
    "- The user is a 79 years old man and may be vulnerable to pressure, urgency and confusion.";
    "- You NEVER directly connect the caller to the user. You only *recommend* what to do.";
    "- Always be cautious if the caller asks for money, bank details, passwords, codes,";
    "  remote access to the user's computer/phone, or personal information that is not";
    "  strictly necessary.";
    "- Speak clearly and simply. Avoid technical jargon.";
    "";
    "Your outputs will be used to:";
    "1) Decide whether the call should reach the user.";
    "2) Generate a short spoken response back to the caller via Text-To-Speech.";
    ""
  ].

Definition SECURITY_RULES : list string := [
  "The user is a 79-year-old man. Treat all unexpected calls with extra caution.";
  "If the caller mentions job sites such as Indeed or LinkedIn, treat this as suspicious "
  ++ "unless there is strong evidence that the user is actively expecting that call.";
  "If the caller asks for bank account details, credit/debit card numbers, PINs, "
  ++ "one-time codes, or passwords, classify the call as HIGH RISK.";
  "If the caller pressures the user with urgency (e.g., 'act now', 'you will be arrested', "
  ++ "'your account will be closed today'), this is a strong scam indicator.";
  "If the caller asks the user to install remote access software, classify as HIGH RISK.";
  "If the caller claims to be from a government body, bank, or tech company but cannot "
  ++ "provide clear verifiable information, treat as suspicious."
].

(** ** Call context *)

Record CallContext : Type := {
  caller_id : option string;
  call_type : string;
  user_age : Z
}.

(** The defaults of the dataclass fields. *)
Definition default_caller_id : option string := None.
Definition default_call_type : string := "incoming".
Definition default_user_age : Z := 79.

(** [x or default] for an optional string: [None] and the empty string are
    both falsy. *)
Definition or_else (x : option string) (default : string) : string :=
  match x with
  | None => default
  | Some EmptyString => default
  | Some s => s
  end.

(** ** Prompt builder

    [build_ai_input] is the prompt the call returns; the call, which can
    raise while it formats the age, is [call_build_ai_input]. *)

Definition FALLBACK_LINE : string := "We cannot proceed with this call. Goodbye.".

Definition build_ai_input (mock_call_text : string) (context : CallContext)
  : string :=
  let rules_text := join nl (map (fun rule => "- " ++ rule) SECURITY_RULES) in
  join nl [
    "";
    "You are screening a phone call for an elderly user.";
    "";
    "User profile:";
    "- Age: " ++ str_of_int (user_age context) ++ " years old";
    "- Name: Micheal";
    "";
    "Call context:";
    "- Caller ID: " ++ or_else (caller_id context) "Unknown";
    "- Call type: " ++ call_type context;
    "";
    "Security rules you MUST follow:";
    rules_text;
    "";
    "Below is the transcript of what the CALLER has said so far.";
    "Treat this as if you are listening to a live phone call.";
    "";
    "CALLER TRANSCRIPT:";
    dq ++ dq ++ dq ++ mock_call_text ++ dq ++ dq ++ dq;
    "";
    "Your tasks:";
    "1. Classify the call as one of: " ++ quoted "safe" ++ ", "
      ++ quoted "suspicious" ++ ", or " ++ quoted "likely_scam" ++ ".";
    "2. Briefly explain the main reasons for your classification.";
    "3. List any specific red flags you noticed (if any).";
    "4. Decide what to do next for the user. Choose one:";
    "   - " ++ quoted "block_call";
    "   - " ++ quoted "warn_and_block";
    "   - " ++ quoted "allow_through";
    "   - " ++ quoted "ask_more_questions";
    "5. Write a short, polite sentence that could be spoken back to the caller by a TTS";
    "   system (e.g., " ++ quoted "We cannot proceed with this call. Goodbye." ++ ").";
    "";
    "Respond in **JSON only** with the following keys:";
    "- classification";
    "- reasoning";
    "- red_flags";
    "- action_for_user";
    "- spoken_response_to_caller";
    ""
  ].

(** The text of the prompt before the value of its Caller ID field. *)
Definition prompt_header (age : Z) : string :=
  join nl [
    "";
    "You are screening a phone call for an elderly user.";
    "";
    "User profile:";
    "- Age: " ++ str_of_int age ++ " years old";
    "- Name: Micheal";
    "";
    "Call context:";
    "- Caller ID: "
  ].

(** ** A reference JSON decoder

    [Json.loads] follows the decoder of Python's [json] module
    ([json/decoder.py], [json/scanner.py]) in its default configuration:
    [None] from a scanning function is [JSONDecodeError].  The pipeline
    below does not depend on it: it takes the decoder from its [Runtime].
    This one instantiates a [Runtime] on concrete inputs. *)
Module Json.

Definition is_ws (c : ascii) : bool :=
  (c =? " ")%char || (c =? "009")%char || (c =? "010")%char || (c =? "013")%char.

Fixpoint skip_ws (s : string) : string :=
  match s with
  | String c rest => if is_ws c then skip_ws rest else s
  | EmptyString => s
  end.

Definition is_digit (c : ascii) : bool :=
  (48 <=? nat_of_ascii c)%nat && (nat_of_ascii c <=? 57)%nat.

(** The longest run of digits at the head of [s], and what follows it. *)
Fixpoint span_digits (s : string) : string * string :=
  match s with
  | String c rest =>
      if is_digit c
      then let (digits, after) := span_digits rest in (String c digits, after)
      else (EmptyString, s)
  | EmptyString => (EmptyString, s)
  end.

Definition Z_of_digits (digits : string) : Z :=
  fold_left (fun acc c => acc * 10 + Z.of_nat (nat_of_ascii c - 48))%Z
            (list_ascii_of_string digits) 0%Z.

Definition is_empty (s : string) : bool :=
  match s with EmptyString => true | _ => false end.

(** [NUMBER_RE]: an optional minus sign, then 0 or a run of digits that
    does not start with 0; an optional fraction, a dot and digits; an
    optional exponent, e or E, an optional sign and digits. *)
Definition match_number (s : string) : option (pyvalue * string) :=
  let (negative, s1) :=
    match s with
    | String "-"%char r => (true, r)
    | _ => (false, s)
    end in
  match s1 with
  | String c r =>
      if is_digit c then
        let (int_part, s2) :=
          if (c =? "0")%char then ("0", r) else span_digits s1 in
        let (frac, s3) :=
          match s2 with
          | String "."%char r2 =>
              let (digits, r3) := span_digits r2 in
              if is_empty digits then (EmptyString, s2) else ("." ++ digits, r3)
          | _ => (EmptyString, s2)
          end in
        let (exp, s4) :=
          match s3 with
          | String e r3 =>
              if (e =? "e")%char || (e =? "E")%char then
                let (sign, r4) :=
                  match r3 with
                  | String "+"%char r' => ("+", r')
                  | String "-"%char r' => ("-", r')
                  | _ => (EmptyString, r3)
                  end in
                let (digits, r5) := span_digits r4 in
                if is_empty digits then (EmptyString, s3)
                else (String e (sign ++ digits), r5)
              else (EmptyString, s3)
          | EmptyString => (EmptyString, s3)
          end in
        if is_empty frac && is_empty exp then
          let n := Z_of_digits int_part in
          Some (PyInt (if negative then - n else n)%Z, s4)
        else
          Some (PyFloat ((if negative then "-" else "") ++ int_part ++ frac ++ exp), s4)
      else None
  | EmptyString => None
  end.

Definition hex_digit (c : ascii) : option N :=
  let n := N_of_ascii c in
  if ((48 <=? n) && (n <=? 57))%N then Some (n - 48)%N
  else if ((97 <=? n) && (n <=? 102))%N then Some (n - 87)%N
  else if ((65 <=? n) && (n <=? 70))%N then Some (n - 55)%N
  else None.

(** [_decode_uXXXX]: four hexadecimal digits. *)
Definition decode_uXXXX (s : string) : option (N * string) :=
  match s with
  | String a (String b (String c (String d rest))) =>
      match hex_digit a, hex_digit b, hex_digit c, hex_digit d with
      | Some x, Some y, Some z, Some w =>
          Some (((x * 16 + y) * 16 + z) * 16 + w, rest)%N
      | _, _, _, _ => None
      end
  | _ => None
  end.

Definition byte (n : N) : string := String (ascii_of_N n) EmptyString.

(** [chr(uni)], UTF-8 encoded. *)
Definition utf8 (uni : N) : string :=
  if (uni <? 128)%N then byte uni
  else if (uni <? 2048)%N then
    byte (192 + uni / 64) ++ byte (128 + uni mod 64)
  else if (uni <? 65536)%N then
    byte (224 + uni / 4096) ++ byte (128 + (uni / 64) mod 64)
      ++ byte (128 + uni mod 64)
  else
    byte (240 + uni / 262144) ++ byte (128 + (uni / 4096) mod 64)
      ++ byte (128 + (uni / 64) mod 64) ++ byte (128 + uni mod 64).

(** [BACKSLASH]: the one-character escapes. *)
Definition unescape (c : ascii) : option string :=
  if (c =? "034")%char then Some dq
  else if (c =? "\")%char then Some "\"
  else if (c =? "/")%char then Some "/"
  else if (c =? "b")%char then Some (byte 8)
  else if (c =? "f")%char then Some (byte 12)
  else if (c =? "n")%char then Some (byte 10)
  else if (c =? "r")%char then Some (byte 13)
  else if (c =? "t")%char then Some (byte 9)
  else None.

(** [scanstring] with [strict=True], from just after the opening quote:
    the decoded text and what follows the closing quote. *)
Fixpoint scanstring (fuel : nat) (s : string) (acc : string)
  : option (string * string) :=
  match fuel with
  | O => None
  | S fuel =>
      match s with
      | EmptyString => None
      | String c rest =>
          if (c =? "034")%char then Some (acc, rest)
          else if (c =? "\")%char then
            match rest with
            | EmptyString => None
            | String esc rest1 =>
                if (esc =? "u")%char then
                  match decode_uXXXX rest1 with
                  | None => None
                  | Some (uni, rest2) =>
                      match rest2 with
                      | String "\"%char (String "u"%char rest3) =>
                          if ((55296 <=? uni) && (uni <=? 56319))%N then
                            match decode_uXXXX rest3 with
                            | None => None
                            | Some (uni2, rest4) =>
                                if ((56320 <=? uni2) && (uni2 <=? 57343))%N then
                                  scanstring fuel rest4
                                    (acc ++ utf8 (65536 + ((uni - 55296) * 1024
                                                           + (uni2 - 56320))))
                                else scanstring fuel rest2 (acc ++ utf8 uni)
                            end
                          else scanstring fuel rest2 (acc ++ utf8 uni)
                      | _ => scanstring fuel rest2 (acc ++ utf8 uni)
                      end
                  end
                else
                  match unescape esc with
                  | Some text => scanstring fuel rest1 (acc ++ text)
                  | None => None
                  end
            end
          else if (nat_of_ascii c <? 32)%nat then None
          else scanstring fuel rest (acc ++ String c EmptyString)
      end
  end.

Definition starts_with (p s : string) : option string :=
  if String.prefix p s
  then Some (String.substring (String.length p)
                              (String.length s - String.length p) s)
  else None.

(** [scan_once], [JSONObject] and [JSONArray].  [scan_members] starts just
    after the opening quote of a key, [scan_elements] at a value. *)
Fixpoint scan_once (fuel : nat) (s : string) : option (pyvalue * string) :=
  match fuel with
  | O => None
  | S fuel =>
      match s with
      | EmptyString => None
      | String c rest =>
          if (c =? "034")%char then
            match scanstring (String.length s) rest EmptyString with
            | Some (text, after) => Some (PyStr text, after)
            | None => None
            end
          else if (c =? "{")%char then
            match skip_ws rest with
            | String "}"%char after => Some (PyDict [], after)
            | String "034"%char after => scan_members fuel after []
            | _ => None
            end
          else if (c =? "[")%char then
            match skip_ws rest with
            | String "]"%char after => Some (PyList [], after)
            | after => scan_elements fuel after []
            end
          else
            match starts_with "null" s, starts_with "true" s,
                  starts_with "false" s with
            | Some after, _, _ => Some (PyNone, after)
            | _, Some after, _ => Some (PyBool true, after)
            | _, _, Some after => Some (PyBool false, after)
            | None, None, None =>
                match match_number s with
                | Some r => Some r
                | None =>
                    match starts_with "NaN" s, starts_with "Infinity" s,
                          starts_with "-Infinity" s with
                    | Some after, _, _ => Some (PyFloat "NaN", after)
                    | _, Some after, _ => Some (PyFloat "Infinity", after)
                    | _, _, Some after => Some (PyFloat "-Infinity", after)
                    | None, None, None => None
                    end
                end
            end
      end
  end
with scan_members (fuel : nat) (s : string) (pairs : list (string * pyvalue))
  : option (pyvalue * string) :=
  match fuel with
  | O => None
  | S fuel =>
      match scanstring (String.length s) s EmptyString with
      | None => None
      | Some (key, s1) =>
          match skip_ws s1 with
          | String ":"%char s2 =>
              match scan_once fuel (skip_ws s2) with
              | None => None
              | Some (value, s3) =>
                  let pairs := dict_set key value pairs in
                  match skip_ws s3 with
                  | String "}"%char after => Some (PyDict pairs, after)
                  | String ","%char s4 =>
                      match skip_ws s4 with
                      | String "034"%char s5 => scan_members fuel s5 pairs
                      | _ => None
                      end
                  | _ => None
                  end
              end
          | _ => None
          end
      end
  end
with scan_elements (fuel : nat) (s : string) (values : list pyvalue)
  : option (pyvalue * string) :=
  match fuel with
  | O => None
  | S fuel =>
      match scan_once fuel s with
      | None => None
      | Some (value, s1) =>
          match skip_ws s1 with
          | String "]"%char after => Some (PyList (values ++ [value])%list, after)
          | String ","%char s2 => scan_elements fuel (skip_ws s2) (values ++ [value])%list
          | _ => None
          end
      end
  end.

(** [json.loads(s)]: one value, white space around it, nothing else.  A
    call of a scanning function consumes a character before the next
    call, so the length of the text, and one, is fuel enough. *)
Definition loads (s : string) : result pyvalue :=
  match scan_once (S (String.length s)) (skip_ws s) with
  | Some (value, rest) =>
      if is_empty (skip_ws rest) then Ok value else Raise JSONDecodeError
  | None => Raise JSONDecodeError
  end.

End Json.

(** ** Effects *)

(** What a run does to the outside world, in the order it does it. *)
Inductive event (Path : Type) : Type :=
| Print (args : list pyvalue)
| ResponsesCreate (model instructions input : string)
| SpeechCreate (model voice : string) (input : pyvalue) (instructions : string)
| StreamToFile (destination : Path)
| SubprocessRun (argv : list string) (check : bool)
| OsStartfile (path : string).
Arguments Print {Path} args.
Arguments ResponsesCreate {Path} model instructions input.
Arguments SpeechCreate {Path} model voice input instructions.
Arguments StreamToFile {Path} destination.
Arguments SubprocessRun {Path} argv check.
Arguments OsStartfile {Path} path.

(** The Python runtime and the services behind the script.  A service sees
    the events so far, so it may answer the same request differently the
    second time. *)
Record Runtime : Type := {
  Path : Type;
  (** [Path(__file__).parent] *)
  module_dir : Path;
  (** [directory / filename] *)
  joinpath : Path -> string -> Path;
  (** [str(path)] *)
  path_str : Path -> string;
  (** [json.loads(text)] *)
  json_loads : string -> result pyvalue;
  (** [platform.system()] *)
  platform_system : string;
  (** [client.responses.create(model, instructions, input).output_text] *)
  responses_create :
    list (event Path) -> string -> string -> string -> result string;
  (** entering [client.audio.speech.with_streaming_response.create(...)] *)
  speech_create :
    list (event Path) -> string -> string -> pyvalue -> string -> result unit;
  (** [response.stream_to_file(path)] *)
  stream_to_file : list (event Path) -> Path -> result unit;
  (** [subprocess.run(argv, check=...)] *)
  subprocess_run : list (event Path) -> list string -> bool -> result unit;
  (** [os.startfile(path)] *)
  os_startfile : list (event Path) -> string -> result unit;
  (** whether the encoding of [sys.stdout] can encode what [print] writes
      for these arguments; asked for text that is not plain ASCII *)
  stdout_encodes : list pyvalue -> bool;
  (** [sys.get_int_max_str_digits()] *)
  int_max_str_digits : N
}.

(** Arguments that are all ASCII strings: every console encodes what
    [print] writes for them. *)
Definition ascii_args (args : list pyvalue) : bool :=
  forallb (fun a => match a with
                    | PyStr s => is_ascii s
                    | _ => false
                    end) args.

Definition can_print (rt : Runtime) (args : list pyvalue) : bool :=
  ascii_args args || stdout_encodes rt args.

(** A reference to a [CallContext] object: its index among the objects. *)
Definition ref : Type := nat.

Record state (Path : Type) : Type := {
  objects : list CallContext;
  trace : list (event Path)
}.
Arguments objects {Path} s.
Arguments trace {Path} s.

Definition initial_state (Path : Type) : state Path :=
  {| objects := []; trace := [] |}.

(** A computation: an outcome and the state it leaves. *)
Definition M (Path A : Type) : Type := state Path -> result A * state Path.

Definition ret {Path A : Type} (a : A) : M Path A :=
  fun st => (Ok a, st).

Definition raise {Path A : Type} (e : exn) : M Path A :=
  fun st => (Raise e, st).

Definition bind {Path A B : Type} (m : M Path A) (k : A -> M Path B)
  : M Path B :=
  fun st =>
    match m st with
    | (Ok a, st') => k a st'
    | (Raise e, st') => (Raise e, st')
    end.

Declare Scope py_scope.
Delimit Scope py_scope with py.
Notation "x <- m ;; k" := (bind m (fun x => k))
  (at level 61, m at next level, right associativity) : py_scope.
Notation "m ;; k" := (bind m (fun _ => k))
  (at level 61, right associativity) : py_scope.
Open Scope py_scope.

(** [try: body except <caught>: handler] *)
Definition try_except {Path A : Type} (body : M Path A)
  (caught : exn -> bool) (handler : M Path A) : M Path A :=
  fun st =>
    match body st with
    | (Ok a, st') => (Ok a, st')
    | (Raise e, st') => if caught e then handler st' else (Raise e, st')
    end.

Definition is_JSONDecodeError (e : exn) : bool :=
  match e with
  | JSONDecodeError => true
  | _ => false
  end.

(** The outcome of a pure library call. *)
Definition lift {Path A : Type} (r : result A) : M Path A :=
  fun st => (r, st).

(** Perform an effect: record it, then let the service answer on the
    events before it. *)
Definition perform {Path A : Type} (e : event Path)
  (service : list (event Path) -> result A) : M Path A :=
  fun st =>
    (service (trace st),
     {| objects := objects st; trace := (trace st ++ [e])%list |}).

(** [print(arg, ...)]: the event is the call; the text is written unless
    the console cannot encode it. *)
Definition print (rt : Runtime) (args : list pyvalue) : M (Path rt) unit :=
  perform (Print args)
          (fun _ => if can_print rt args then Ok tt
                    else Raise UnicodeEncodeError).

(** Construct an object and return the reference to it. *)
Definition new {Path : Type} (c : CallContext) : M Path ref :=
  fun st =>
    (Ok (List.length (objects st)),
     {| objects := (objects st ++ [c])%list; trace := trace st |}).

(** Read the object behind a reference. *)
Definition deref {Path : Type} (r : ref) : M Path CallContext :=
  fun st =>
    match nth_error (objects st) r with
    | Some c => (Ok c, st)
    | None => (Raise ReferenceError, st)
    end.

(** ** The pipeline *)

Definition SPOKEN_KEY : string := "spoken_response_to_caller".
Definition DEFAULT_FILENAME : string := "call_response.mp3".

(** The [filename] parameter of [speak_with_openai], [None] when the
    argument is left out: its default then stands for it. *)
Definition filename_or_default (filename : option string) : string :=
  match filename with
  | Some f => f
  | None => DEFAULT_FILENAME
  end.

(** [obj.get(key, default)]: only a dict has the method. *)
Definition call_get {Path : Type} (obj : pyvalue) (key : string)
  (default : pyvalue) : M Path pyvalue :=
  match obj with
  | PyDict entries => ret (dict_get entries key default)
  | _ => raise AttributeError
  end.

Section Pipeline.

Variable rt : Runtime.

(** [build_ai_input(mock_call_text, context)] as a call: the context is
    passed by reference, and formatting the age can raise. *)
Definition call_build_ai_input (mock_call_text : string) (context : ref)
  : M (Path rt) string :=
  c <- deref context ;;
  if int_str_raises (int_max_str_digits rt) (user_age c)
  then raise ValueError
  else ret (build_ai_input mock_call_text c).

Definition send_to_openai (prompt : string) : M (Path rt) string :=
  perform (ResponsesCreate "gpt-5.1" BASE_INSTRUCTIONS prompt)
          (fun history =>
             responses_create rt history "gpt-5.1" BASE_INSTRUCTIONS prompt).

Definition speak_with_openai (text : pyvalue) (filename : option string)
  : M (Path rt) (Path rt) :=
  let filename := filename_or_default filename in
  let audio_path := joinpath rt (module_dir rt) filename in
  perform (SpeechCreate "gpt-4o-mini-tts" "alloy" text
                        "Speak clearly, calmly, and politely.")
          (fun history =>
             speech_create rt history "gpt-4o-mini-tts" "alloy" text
                           "Speak clearly, calmly, and politely.") ;;
  perform (StreamToFile audio_path)
          (fun history => stream_to_file rt history audio_path) ;;
  ret audio_path.

Definition play_audio (audio_path : Path rt) : M (Path rt) unit :=
  let system := platform_system rt in
  if (system =? "Darwin")%string then
    perform (SubprocessRun ["afplay"; path_str rt audio_path] false)
            (fun history =>
               subprocess_run rt history ["afplay"; path_str rt audio_path] false)
  else if (system =? "Windows")%string then
    perform (OsStartfile (path_str rt audio_path))
            (fun history => os_startfile rt history (path_str rt audio_path))
  else
    perform (SubprocessRun ["xdg-open"; path_str rt audio_path] false)
            (fun history =>
               subprocess_run rt history ["xdg-open"; path_str rt audio_path] false).

(** The parsing step of [screen_mock_call]: the [try] around [json.loads]
    and its handler. *)
Definition parse_response (ai_response_text : string) : M (Path rt) pyvalue :=
  try_except
    (lift (json_loads rt ai_response_text))
    is_JSONDecodeError
    (print rt [PyStr "ERROR: Could not parse JSON from model response."] ;;
     print rt [PyStr "Falling back to a generic spoken line."] ;;
     ret (PyDict [(SPOKEN_KEY, PyStr FALLBACK_LINE)])).

(** The next statement of [screen_mock_call]: [result.get(...)]. *)
Definition select_spoken_line (result : pyvalue) : M (Path rt) pyvalue :=
  call_get result SPOKEN_KEY (PyStr FALLBACK_LINE).

Definition screen_mock_call (mock_call_text : string)
  (caller_id : option string) (call_type : string) : M (Path rt) unit :=
  context <- new {| caller_id := caller_id; call_type := call_type;
                    user_age := default_user_age |} ;;
  prompt <- call_build_ai_input mock_call_text context ;;
  ai_response_text <- send_to_openai prompt ;;
  print rt [PyStr (nl ++ "===== RAW AI RESPONSE TEXT =====")] ;;
  print rt [PyStr ai_response_text] ;;
  print rt [PyStr ("================================" ++ nl)] ;;
  result <- parse_response ai_response_text ;;
  spoken_line <- select_spoken_line result ;;
  print rt [PyStr "AI wants to say to the caller:"; spoken_line] ;;
  audio_path <- speak_with_openai spoken_line None ;;
  print rt [PyStr ("Audio saved to: " ++ path_str rt audio_path)] ;;
  play_audio audio_path.

(** Lines 208 to 220 of [screen_mock_call] on their own: the parsing step,
    then the lookup of the spoken line. *)
Definition resolve_spoken_line (ai_response_text : string)
  : M (Path rt) pyvalue :=
  result <- parse_response ai_response_text ;;
  select_spoken_line result.

(** The functions of the program, as the operations a caller can run. *)
Inductive operation : Type :=
| BuildAiInput (mock_call_text : string) (context : ref)
| SendToOpenai (prompt : string)
| SpeakWithOpenai (text : pyvalue) (filename : option string)
| PlayAudio (audio_path : Path rt)
| ScreenMockCall (mock_call_text : string) (caller_id : option string)
                 (call_type : string).

(** The state an operation leaves, whatever its outcome. *)
Definition run (op : operation) (st : state (Path rt)) : state (Path rt) :=
  match op with
  | BuildAiInput text context => snd (call_build_ai_input text context st)
  | SendToOpenai prompt => snd (send_to_openai prompt st)
  | SpeakWithOpenai text filename => snd (speak_with_openai text filename st)
  | PlayAudio audio_path => snd (play_audio audio_path st)
  | ScreenMockCall text caller_id call_type =>
      snd (screen_mock_call text caller_id call_type st)
  end.

Definition run_all (ops : list operation) (st : state (Path rt)) : state (Path rt) :=
  fold_left (fun s op => run op s) ops st.

End Pipeline.

(** Two answers of the classification service: an object with the spoken
    line, and an object without it. *)
Definition reply_with_line : string :=
  "{" ++ quoted "classification" ++ ": " ++ quoted "likely_scam" ++ ", "
  ++ quoted "spoken_response_to_caller" ++ ": "
  ++ quoted "Please call back later." ++ "}".


(** A computation that leaves every object it finds as it found it. *)
Definition keeps_objects {Path A : Type} (m : M Path A) : Prop :=
  forall st r c,
    nth_error (objects st) r = Some c ->
    nth_error (objects (snd (m st))) r = Some c.

(** The texts handed to speech synthesis, in order. *)
Definition speech_inputs {Path : Type} (events : list (event Path))
  : list pyvalue :=
  flat_map (fun e => match e with
                     | SpeechCreate _ _ input _ => [input]
                     | _ => []
                     end) events.

(** ** A reference runtime

    A POSIX host whose services succeed: the classification service
    answers [reply] and [platform.system()] is [system].  A path is its
    text; [posix_join] is [/] of [PurePosixPath] on a directory without a
    trailing slash and a plain file name.  The console is UTF-8 and the
    digit limit is the interpreter's default. *)

(** A surrogate code point in a text: the byte 237 and a byte from 160. *)
Fixpoint has_surrogate (s : string) : bool :=
  match s with
  | String a (String b _ as rest) =>
      ((nat_of_ascii a =? 237)%nat && (160 <=? nat_of_ascii b)%nat)
      || has_surrogate rest
  | _ => false
  end.

(** A UTF-8 console: a string is written as it is, so it must hold no
    surrogate; any other value is written through [repr], which escapes
    them. *)
Definition utf8_console (args : list pyvalue) : bool :=
  forallb (fun a => match a with
                    | PyStr s => negb (has_surrogate s)
                    | _ => true
                    end) args.
Definition posix_join (directory filename : string) : string :=
  if String.prefix "/" filename then filename
  else directory ++ "/" ++ filename.

Definition reference_runtime (system reply : string) : Runtime := {|
  Path := string;
  module_dir := "/srv/app";
  joinpath := posix_join;
  path_str := fun p => p;
  json_loads := Json.loads;
  platform_system := system;
  responses_create := fun _ _ _ _ => Ok reply;
  speech_create := fun _ _ _ _ _ => Ok tt;
  stream_to_file := fun _ _ => Ok tt;
  subprocess_run := fun _ _ _ => Ok tt;
  os_startfile := fun _ _ => Ok tt;
  stdout_encodes := utf8_console;
  int_max_str_digits := 4300
|}.

(** ** The entry point *)

(** The placeholder transcript of the [__main__] block. *)
Definition mock_call : string :=
  nl ++ "!!!!! Insert mock call here !!!!!" ++ nl.

(** The [__main__] block. *)
Definition main (rt : Runtime) : M (Path rt) unit :=
  screen_mock_call rt mock_call (Some "+353 83 123 4567") "incoming".

(** ** The steps of a run, by name *)

(** The state after further events. *)
Definition log {Path : Type} (st : state Path) (events : list (event Path))
  : state Path :=
  {| objects := objects st; trace := (trace st ++ events)%list |}.

(** The context [screen_mock_call] constructs: the age is left to its
    default. *)
Definition screened_context (caller_id : option string) (call_type : string)
  : CallContext :=
  {| caller_id := caller_id; call_type := call_type;
     user_age := default_user_age |}.

(** The request of [send_to_openai] for a screened call. *)
Definition request_event {Path : Type} (mock_call_text : string)
  (caller_id : option string) (call_type : string) : event Path :=
  ResponsesCreate "gpt-5.1" BASE_INSTRUCTIONS
    (build_ai_input mock_call_text (screened_context caller_id call_type)).

(** The three prints around the raw answer. *)
Definition banner {Path : Type} (ai_response_text : string)
  : list (event Path) :=
  [Print [PyStr (nl ++ "===== RAW AI RESPONSE TEXT =====")];
   Print [PyStr ai_response_text];
   Print [PyStr ("================================" ++ nl)]].

(** The two prints of the [except] branch. *)
Definition diagnostics {Path : Type} : list (event Path) :=
  [Print [PyStr "ERROR: Could not parse JSON from model response."];
   Print [PyStr "Falling back to a generic spoken line."]].

(** The print of the chosen line. *)
Definition announce {Path : Type} (spoken_line : pyvalue) : event Path :=
  Print [PyStr "AI wants to say to the caller:"; spoken_line].

(** The request of [speak_with_openai]. *)
Definition speech_event {Path : Type} (text : pyvalue) : event Path :=
  SpeechCreate "gpt-4o-mini-tts" "alloy" text
    "Speak clearly, calmly, and politely.".

(** The path [speak_with_openai] resolves when the file name is left out. *)
Definition default_audio_path (rt : Runtime) : Path rt :=
  joinpath rt (module_dir rt) DEFAULT_FILENAME.

(** The print of the saved path. *)
Definition saved_event (rt : Runtime) (audio_path : Path rt)
  : event (Path rt) :=
  Print [PyStr ("Audio saved to: " ++ path_str rt audio_path)].

(** The last four statements of [screen_mock_call], from the print of the
    spoken line on. *)
Definition speak_and_play (rt : Runtime) (spoken_line : pyvalue)
  : M (Path rt) unit :=
  print rt [PyStr "AI wants to say to the caller:"; spoken_line] ;;
  audio_path <- speak_with_openai rt spoken_line None ;;
  print rt [PyStr ("Audio saved to: " ++ path_str rt audio_path)] ;;
  play_audio rt audio_path.

(** What reaches speech synthesis once a line is chosen: the line, when
    the print that announces it gets through. *)
Definition spoken (rt : Runtime) (spoken_line : pyvalue) : list pyvalue :=
  if can_print rt [PyStr "AI wants to say to the caller:"; spoken_line]
  then [spoken_line] else [].

(** An event that starts a player. *)
Definition is_playback {Path : Type} (e : event Path) : bool :=
  match e with
  | SubprocessRun _ _ => true
  | OsStartfile _ => true
  | _ => false
  end.

Definition is_request {Path : Type} (e : event Path) : bool :=
  match e with
  | ResponsesCreate _ _ _ => true
  | _ => false
  end.

(** The effects the program allows itself on a host: its two models with
    their fixed settings, files under its own directory, and the player
    of the host, whose exit status it never asks to check. *)
Definition permitted (rt : Runtime) (e : event (Path rt)) : Prop :=
  match e with
  | Print _ => True
  | ResponsesCreate model instructions _ =>
      model = "gpt-5.1" /\ instructions = BASE_INSTRUCTIONS
  | SpeechCreate model voice _ instructions =>
      model = "gpt-4o-mini-tts" /\ voice = "alloy"
      /\ instructions = "Speak clearly, calmly, and politely."
  | StreamToFile destination =>
      exists filename, destination = joinpath rt (module_dir rt) filename
  | SubprocessRun argv check =>
      check = false
      /\ exists p,
           (platform_system rt = "Darwin"
            /\ argv = ["afplay"; path_str rt p])
           \/ (platform_system rt <> "Darwin"
               /\ platform_system rt <> "Windows"
               /\ argv = ["xdg-open"; path_str rt p])
  | OsStartfile path =>
      platform_system rt = "Windows" /\ exists p, path = path_str rt p
  end.

(** A computation that only adds events, each of them satisfying [P]. *)
Definition emits {Path A : Type} (P : event Path -> Prop) (m : M Path A)
  : Prop :=
  forall st, exists new,
    trace (snd (m st)) = (trace st ++ new)%list /\ Forall P new.

(** ** A runtime with scripted answers

    As [reference_runtime], with the decoder and the answers of the
    classification and speech services given: an answer may be an
    exception. *)
Definition scripted_runtime (system : string)
  (loads : string -> result pyvalue) (reply : result string)
  (speech stream : result unit) : Runtime := {|
  Path := string;
  module_dir := "/srv/app";
  joinpath := posix_join;
  path_str := fun p => p;
  json_loads := loads;
  platform_system := system;
  responses_create := fun _ _ _ _ => reply;
  speech_create := fun _ _ _ _ _ => speech;
  stream_to_file := fun _ _ => stream;
  subprocess_run := fun _ _ _ => Ok tt;
  os_startfile := fun _ _ => Ok tt;
  stdout_encodes := utf8_console;
  int_max_str_digits := 4300
|}.

(** The same host behind a console that encodes ASCII only. *)
Definition on_ascii_console (rt : Runtime) : Runtime := {|
  Path := Path rt;
  module_dir := module_dir rt;
  joinpath := joinpath rt;
  path_str := path_str rt;
  json_loads := json_loads rt;
  platform_system := platform_system rt;
  responses_create := responses_create rt;
  speech_create := speech_create rt;
  stream_to_file := stream_to_file rt;
  subprocess_run := subprocess_run rt;
  os_startfile := os_startfile rt;
  stdout_encodes := fun _ => false;
  int_max_str_digits := int_max_str_digits rt
|}.

(** ** JSON as RFC 8259 has it

    Python's decoder reads the JSON grammar and three constants that are
    not JSON: NaN, Infinity and -Infinity.  A float keeps the text it was
    read from, so a decoded value tells whether one of them was read. *)
Fixpoint has_constant (v : pyvalue) : bool :=
  match v with
  | PyFloat literal =>
      (literal =? "NaN")%string || (literal =? "Infinity")%string
      || (literal =? "-Infinity")%string
  | PyList items => existsb has_constant items
  | PyDict entries =>
      existsb (fun entry => match entry with (_, w) => has_constant w end)
              entries
  | _ => false
  end.

(** A text is valid JSON when the reference decoder accepts it without
    reading one of the three constants. *)
Definition valid_json (s : string) : bool :=
  match Json.loads s with
  | Ok v => negb (has_constant v)
  | Raise _ => false
  end.

(** An answer whose spoken line is a lone surrogate, written as JSON
    writes it: a backslash, the letter u and four digits. *)
Definition reply_with_surrogate : string :=
  "{" ++ quoted "spoken_response_to_caller" ++ ": " ++ quoted "\ud800" ++ "}".

(** The letter e with an acute accent, in UTF-8. *)
Definition e_acute : string := String "195"%char (String "169"%char EmptyString).

(** An answer that is an object without the spoken line, and not ASCII. *)
Definition reply_with_accent : string :=
  "{" ++ quoted "classification" ++ ": " ++ quoted ("s" ++ e_acute ++ "r")
  ++ "}".

(** The deepest nesting of brackets and braces in a text. *)
Fixpoint nesting (s : string) (depth deepest : nat) : nat :=
  match s with
  | EmptyString => deepest
  | String c rest =>
      if ((c =? "[")%char || (c =? "{")%char)%bool then
        nesting rest (S depth) (Nat.max deepest (S depth))
      else if ((c =? "]")%char || (c =? "}")%char)%bool then
        nesting rest (Nat.pred depth) deepest
      else nesting rest depth deepest
  end.

(** A decoder with a recursion limit: a text nested deeper raises
    [RecursionError], which is not a [JSONDecodeError]. *)
Definition limited_loads (limit : nat) (s : string) : result pyvalue :=
  if (limit <? nesting s 0 0)%nat then Raise (RaisedBy "RecursionError")
  else Json.loads s.

(** * Properties *)

(** ** Strings *)

Lemma append_assoc (a b c : string) : (a ++ b) ++ c = a ++ b ++ c.
Proof.
  induction a as [|x a IH]; simpl; [reflexivity | now rewrite IH].
Qed.

Lemma append_empty_r (a : string) : a ++ "" = a.
Proof.
  induction a as [|x a IH]; simpl; [reflexivity | now rewrite IH].
Qed.

Lemma substring_refl (s : string) : Substring s s.
Proof.
  exists "", "". simpl. now rewrite append_empty_r.
Qed.

Lemma substring_app_r (s a b : string) : Substring s b -> Substring s (a ++ b).
Proof.
  intros (p & q & ->). exists (a ++ p), q. now rewrite append_assoc.
Qed.

Lemma substring_app_l (s a b : string) : Substring s a -> Substring s (a ++ b).
Proof.
  intros (p & q & ->). exists p, (q ++ b). now rewrite !append_assoc.
Qed.

Lemma substring_trans (s t u : string) :
  Substring s t -> Substring t u -> Substring s u.
Proof.
  intros Hst (p & q & ->).
  now apply substring_app_r, substring_app_l.
Qed.

(** A part of a joined text occurs in it. *)
Lemma substring_join (sep x : string) (parts : list string) :
  In x parts -> Substring x (join sep parts).
Proof.
  unfold join.
  induction parts as [|y parts IH]; simpl; [contradiction|].
  intros [-> | Hin].
  - destruct parts; [apply substring_refl | apply substring_app_l, substring_refl].
  - destruct parts as [|z parts]; [contradiction|].
    apply substring_app_r, substring_app_r, IH, Hin.
Qed.

(** Joining around one part: what stands before it and after it. *)
Lemma join_around (sep x y z : string) (before after : list string) :
  join sep ((y :: before) ++ x :: z :: after)%list
  = (join sep (y :: before) ++ sep) ++ x ++ (sep ++ join sep (z :: after)).
Proof.
  unfold join.
  revert y. induction before as [|w before IH]; intros y; simpl.
  - now rewrite !append_assoc.
  - specialize (IH w). simpl in IH. rewrite IH. now rewrite !append_assoc.
Qed.

Lemma prefix_iff (s t : string) :
  String.prefix s t = true <-> exists after, t = s ++ after.
Proof.
  revert t. induction s as [|c s IH]; intros t.
  - split; [intros _; now exists t | now destruct t].
  - destruct t as [|d t]; simpl.
    + split; [discriminate | intros (a & Ha); discriminate].
    + destruct (ascii_dec c d) as [-> | Hne].
      * rewrite IH. split; intros (a & Ha); exists a; congruence.
      * split; [discriminate | intros (a & Ha); congruence].
Qed.

(** [contains] decides [Substring]. *)
Lemma contains_iff (s t : string) : contains s t = true <-> Substring s t.
Proof.
  induction t as [|d t IH].
  - cbn [contains]. rewrite orb_false_r, prefix_iff. split.
    + intros (a & ->). exists "", a. reflexivity.
    + intros (p & q & H). destruct p; [now exists q | discriminate].
  - cbn [contains]. rewrite orb_true_iff, prefix_iff, IH. split.
    + intros [(a & ->) | (p & q & ->)].
      * exists "", a. reflexivity.
      * exists (String d p), q. reflexivity.
    + intros (p & q & H). destruct p as [|c p].
      * left. now exists q.
      * right. exists p, q. simpl in H. congruence.
Qed.

(** ** Prompt builder *)

(** The transcript stands in the prompt as it is: the text before it and
    the text after it do not depend on it. *)
Lemma build_ai_input_verbatim (context : CallContext) :
  exists before after, forall mock_call_text,
    build_ai_input mock_call_text context
    = before ++ (dq ++ dq ++ dq ++ mock_call_text ++ dq ++ dq ++ dq) ++ after.
Proof.
  eexists. eexists. intros text. unfold build_ai_input.
  match goal with
  | |- join nl ?l = _ =>
      change l with ((firstn 18 l) ++ (nth 18 l "") :: (skipn 19 l))%list
  end.
  cbn [firstn skipn nth].
  rewrite join_around. reflexivity.
Qed.

(** Every security rule occurs in the rendered list of rules. *)
Lemma rule_in_rules_text (bullet sep : string) (rules : list string) (rule : string) :
  In rule rules ->
  Substring rule (join sep (map (fun r => bullet ++ r) rules)).
Proof.
  intros Hin.
  apply substring_trans with (t := bullet ++ rule).
  - apply substring_app_r, substring_refl.
  - apply substring_join, in_map_iff. now exists rule.
Qed.

Lemma transcript_in_prompt (mock_call_text : string) (context : CallContext) :
  Substring mock_call_text (build_ai_input mock_call_text context).
Proof.
  destruct (build_ai_input_verbatim context) as (before & after & H).
  rewrite H. exists (before ++ dq ++ dq ++ dq), (dq ++ dq ++ dq ++ after).
  now rewrite !append_assoc.
Qed.

Lemma rule_in_prompt (mock_call_text : string) (context : CallContext)
  (rule : string) :
  In rule SECURITY_RULES ->
  Substring rule (build_ai_input mock_call_text context).
Proof.
  intros Hin.
  apply substring_trans
    with (t := join nl (map (fun r => "- " ++ r) SECURITY_RULES)).
  - now apply rule_in_rules_text.
  - unfold build_ai_input. apply substring_join.
    do 12 right. left. reflexivity.
Qed.

(** C2: for every transcript and every call context, the prompt contains
    the transcript verbatim as a substring and contains every string of
    [SECURITY_RULES] as a substring. *)
Theorem prompt_contains_transcript_and_rules
  (mock_call_text : string) (context : CallContext) :
  Substring mock_call_text (build_ai_input mock_call_text context)
  /\ Forall (fun rule => Substring rule (build_ai_input mock_call_text context))
            SECURITY_RULES.
Proof.
  split.
  - apply transcript_in_prompt.
  - apply Forall_forall. intros rule Hin. now apply rule_in_prompt.
Qed.

(** The same, as the test [rule in prompt] a Python check would run. *)
Corollary prompt_contains_checks (mock_call_text : string) (context : CallContext) :
  contains mock_call_text (build_ai_input mock_call_text context) = true
  /\ forallb (fun rule => contains rule (build_ai_input mock_call_text context))
             SECURITY_RULES = true.
Proof.
  split; [apply contains_iff, transcript_in_prompt|].
  apply forallb_forall. intros rule Hin. now apply contains_iff, rule_in_prompt.
Qed.

(** The prompt, field by field: the header, the caller identifier or its
    default, then the call type. *)
Lemma build_ai_input_caller_field (mock_call_text : string) (context : CallContext) :
  exists rest,
    build_ai_input mock_call_text context
    = prompt_header (user_age context)
      ++ or_else (caller_id context) "Unknown"
      ++ nl ++ "- Call type: " ++ call_type context ++ rest.
Proof.
  eexists. unfold build_ai_input, prompt_header.
  unfold join. cbn [String.concat].
  rewrite !append_assoc. cbn [append].
  repeat f_equal.
Qed.

(** C8: when the caller identifier is absent, the prompt renders the
    Caller ID field as the default text "Unknown": the field follows the
    header of the prompt, and the prompt is the one of a caller whose
    identifier is the text "Unknown". *)
Theorem absent_caller_id_renders_unknown
  (mock_call_text call_type : string) (user_age : Z) :
  (exists rest,
     build_ai_input mock_call_text
       {| caller_id := None; call_type := call_type; user_age := user_age |}
     = prompt_header user_age ++ "Unknown" ++ nl
       ++ "- Call type: " ++ call_type ++ rest)
  /\ build_ai_input mock_call_text
       {| caller_id := None; call_type := call_type; user_age := user_age |}
     = build_ai_input mock_call_text
         {| caller_id := Some "Unknown"; call_type := call_type;
            user_age := user_age |}.
Proof.
  split; [|reflexivity].
  exact (build_ai_input_caller_field mock_call_text
           {| caller_id := None; call_type := call_type; user_age := user_age |}).
Qed.

(** C10: when the caller identifier is present but empty, the prompt also
    renders the Caller ID field as "Unknown": it is the prompt of an absent
    identifier. *)
Theorem empty_caller_id_renders_unknown
  (mock_call_text call_type : string) (user_age : Z) :
  (exists rest,
     build_ai_input mock_call_text
       {| caller_id := Some ""; call_type := call_type; user_age := user_age |}
     = prompt_header user_age ++ "Unknown" ++ nl
       ++ "- Call type: " ++ call_type ++ rest)
  /\ build_ai_input mock_call_text
       {| caller_id := Some ""; call_type := call_type; user_age := user_age |}
     = build_ai_input mock_call_text
         {| caller_id := None; call_type := call_type; user_age := user_age |}.
Proof.
  split; [|reflexivity].
  exact (build_ai_input_caller_field mock_call_text
           {| caller_id := Some ""; call_type := call_type; user_age := user_age |}).
Qed.

(** A caller identifier that is present and not empty is rendered as it is. *)
Lemma given_caller_id_rendered (c : ascii) (s : string) :
  or_else (Some (String c s)) "Unknown" = String c s.
Proof. reflexivity. Qed.

(** The default age is formatted under every limit. *)
Lemma default_age_formats (limit : N) :
  int_str_raises limit default_user_age = false.
Proof.
  destruct limit as [|p]; [reflexivity|].
  unfold int_str_raises. apply N.ltb_ge.
  change (decimal_digits default_user_age) with 2%N. lia.
Qed.

(** A call of the prompt builder on a live reference, within the limit. *)
Lemma call_build_ai_input_ok (rt : Runtime) (mock_call_text : string)
  (context : ref) (c : CallContext) (st : state (Path rt)) :
  nth_error (objects st) context = Some c ->
  int_str_raises (int_max_str_digits rt) (user_age c) = false ->
  call_build_ai_input rt mock_call_text context st
  = (Ok (build_ai_input mock_call_text c), st).
Proof.
  intros H Hlimit. unfold call_build_ai_input, bind, deref, ret.
  now rewrite H, Hlimit.
Qed.

(** Beyond the limit the call raises, and does nothing else. *)
Lemma call_build_ai_input_raises (rt : Runtime) (mock_call_text : string)
  (context : ref) (c : CallContext) (st : state (Path rt)) :
  nth_error (objects st) context = Some c ->
  int_str_raises (int_max_str_digits rt) (user_age c) = true ->
  call_build_ai_input rt mock_call_text context st = (Raise ValueError, st).
Proof.
  intros H Hlimit. unfold call_build_ai_input, bind, deref, raise.
  now rewrite H, Hlimit.
Qed.

(** C6, as the code has it: the prompt builder is pure, and total within
    the interpreter's limit on the digits of an [int].  Called on any
    transcript and on any context whose age has no more digits than the
    limit, in any state, it returns a prompt without raising and leaves
    the state as it was (no object changed, no effect performed); the
    prompt holds the transcript, and depends on the transcript and on the
    fields of the context only, so a call with equal inputs, in whatever
    state and on whatever host within the limit, returns the same
    prompt. *)
Theorem build_ai_input_pure_within_limit
  (rt : Runtime) (mock_call_text : string) (context : ref)
  (c : CallContext) (st : state (Path rt)) :
  nth_error (objects st) context = Some c ->
  int_str_raises (int_max_str_digits rt) (user_age c) = false ->
  call_build_ai_input rt mock_call_text context st
  = (Ok (build_ai_input mock_call_text c), st)
  /\ Substring mock_call_text (build_ai_input mock_call_text c)
  /\ forall (rt' : Runtime) (context' : ref) (st' : state (Path rt')),
       nth_error (objects st') context' = Some c ->
       int_str_raises (int_max_str_digits rt') (user_age c) = false ->
       fst (call_build_ai_input rt' mock_call_text context' st')
       = fst (call_build_ai_input rt mock_call_text context st).
Proof.
  intros H Hlimit. split; [now apply call_build_ai_input_ok|].
  split; [apply transcript_in_prompt|].
  intros rt' context' st' H' Hlimit'.
  now rewrite (call_build_ai_input_ok _ _ _ _ _ H Hlimit),
              (call_build_ai_input_ok _ _ _ _ _ H' Hlimit').
Qed.

(** C6, as it is stated, fails on a context whose age has more digits than
    the limit: formatting the age raises [ValueError], and no prompt is
    returned.  Here the limit is the default, 4300 digits, and the age is
    10 to the power 4300, which has 4301. *)
Lemma huge_age_raises :
  decimal_digits (10 ^ 4300) = 4301%N
  /\ call_build_ai_input (reference_runtime "Linux" "{}") "Hello" 0
       {| objects := [{| caller_id := None; call_type := "incoming";
                         user_age := 10 ^ 4300 |}];
          trace := [] |}
     = (Raise ValueError,
        {| objects := [{| caller_id := None; call_type := "incoming";
                          user_age := 10 ^ 4300 |}];
           trace := [] |}).
Proof.
  split; vm_compute; reflexivity.
Qed.

(** The delimiters of the transcript are not escaped: a transcript made of
    the delimiter stands in the prompt as three more quotes. *)
Example build_ai_input_delimiters :
  Substring (dq ++ dq ++ dq ++ dq ++ dq ++ dq ++ dq ++ dq ++ dq)
    (build_ai_input (dq ++ dq ++ dq)
       {| caller_id := None; call_type := "incoming"; user_age := 79 |}).
Proof.
  apply contains_iff. vm_compute. reflexivity.
Qed.

Example build_ai_input_empty :
  Substring (nl ++ dq ++ dq ++ dq ++ dq ++ dq ++ dq ++ nl)
    (build_ai_input ""
       {| caller_id := None; call_type := "incoming"; user_age := 79 |}).
Proof.
  apply contains_iff. vm_compute. reflexivity.
Qed.

(** The prompt builder on a transcript made of its own delimiter. *)
Lemma build_ai_input_pure_within_limit_witness :
  call_build_ai_input (reference_runtime "Linux" "{}") (dq ++ dq ++ dq) 0
    {| objects := [{| caller_id := None; call_type := "incoming"; user_age := 79 |}];
       trace := [] |}
  = (Ok (build_ai_input (dq ++ dq ++ dq)
           {| caller_id := None; call_type := "incoming"; user_age := 79 |}),
     {| objects := [{| caller_id := None; call_type := "incoming"; user_age := 79 |}];
        trace := [] |}).
Proof.
  apply (build_ai_input_pure_within_limit (reference_runtime "Linux" "{}")
           (dq ++ dq ++ dq) 0
           {| caller_id := None; call_type := "incoming"; user_age := 79 |});
    reflexivity.
Defined.

(** ** Computations *)

Lemma bind_ok {Path A B : Type} (m : M Path A) (k : A -> M Path B)
  (st st' : state Path) (a : A) :
  m st = (Ok a, st') -> bind m k st = k a st'.
Proof. intros H. unfold bind. now rewrite H. Qed.

Lemma bind_raise {Path A B : Type} (m : M Path A) (k : A -> M Path B)
  (st st' : state Path) (e : exn) :
  m st = (Raise e, st') -> bind m k st = (Raise e, st').
Proof. intros H. unfold bind. now rewrite H. Qed.

Lemma bind_assoc {Path A B C : Type} (m : M Path A) (k : A -> M Path B)
  (h : B -> M Path C) (st : state Path) :
  bind (bind m k) h st = bind m (fun a => bind (k a) h) st.
Proof.
  unfold bind. destruct (m st) as [[a|e] st']; reflexivity.
Qed.

Lemma nth_error_new {A : Type} (l : list A) (a : A) :
  nth_error (l ++ [a]) (List.length l) = Some a.
Proof.
  rewrite nth_error_app2 by lia. now rewrite Nat.sub_diag.
Qed.

Lemma nth_error_kept {A : Type} (l extra : list A) (r : nat) (a : A) :
  nth_error l r = Some a -> nth_error (l ++ extra) r = Some a.
Proof.
  intros H. rewrite nth_error_app1; [exact H|].
  apply nth_error_Some. congruence.
Qed.

(** *** Objects are kept *)

Create HintDb frame.

Lemma keeps_ret {Path A : Type} (a : A) : keeps_objects (@ret Path A a).
Proof. intros st r c H. exact H. Qed.

Lemma keeps_raise {Path A : Type} (e : exn) : keeps_objects (@raise Path A e).
Proof. intros st r c H. exact H. Qed.

Lemma keeps_lift {Path A : Type} (x : result A) : keeps_objects (@lift Path A x).
Proof. intros st r c H. exact H. Qed.

Lemma keeps_perform {Path A : Type} (e : event Path)
  (service : list (event Path) -> result A) :
  keeps_objects (perform e service).
Proof. intros st r c H. exact H. Qed.

Lemma keeps_print (rt : Runtime) (args : list pyvalue) :
  keeps_objects (print rt args).
Proof. apply keeps_perform. Qed.

Lemma keeps_new {Path : Type} (c : CallContext) : keeps_objects (@new Path c).
Proof. intros st r c' H. simpl. now apply nth_error_kept. Qed.

Lemma keeps_deref {Path : Type} (r : ref) : keeps_objects (@deref Path r).
Proof.
  intros st r' c H. unfold deref.
  destruct (nth_error (objects st) r); exact H.
Qed.

Lemma keeps_bind {Path A B : Type} (m : M Path A) (k : A -> M Path B) :
  keeps_objects m -> (forall a, keeps_objects (k a)) ->
  keeps_objects (bind m k).
Proof.
  intros Hm Hk st r c H. unfold bind.
  specialize (Hm st r c H).
  destruct (m st) as [[a|e] st']; simpl in Hm; [now apply Hk | exact Hm].
Qed.

Lemma keeps_try_except {Path A : Type} (body handler : M Path A)
  (caught : exn -> bool) :
  keeps_objects body -> keeps_objects handler ->
  keeps_objects (try_except body caught handler).
Proof.
  intros Hb Hh st r c H. unfold try_except.
  specialize (Hb st r c H).
  destruct (body st) as [[a|e] st']; simpl in Hb; [exact Hb|].
  destruct (caught e); [now apply Hh | exact Hb].
Qed.

Lemma keeps_call_get {Path : Type} (obj : pyvalue) (key : string)
  (default : pyvalue) :
  keeps_objects (@call_get Path obj key default).
Proof. destruct obj; intros st r c H; exact H. Qed.

#[export] Hint Resolve keeps_ret keeps_raise keeps_lift keeps_perform
  keeps_print keeps_new keeps_deref keeps_bind keeps_try_except
  keeps_call_get : frame.

Section Frame.

Variable rt : Runtime.

Lemma keeps_call_build_ai_input (text : string) (context : ref) :
  keeps_objects (call_build_ai_input rt text context).
Proof.
  unfold call_build_ai_input.
  apply keeps_bind; [auto with frame|]. intros c.
  destruct (int_str_raises _ _); auto with frame.
Qed.

Lemma keeps_send_to_openai (prompt : string) :
  keeps_objects (send_to_openai rt prompt).
Proof. unfold send_to_openai. auto with frame. Qed.

Lemma keeps_speak_with_openai (text : pyvalue) (filename : option string) :
  keeps_objects (speak_with_openai rt text filename).
Proof. unfold speak_with_openai. auto with frame. Qed.

Lemma keeps_play_audio (audio_path : Path rt) :
  keeps_objects (play_audio rt audio_path).
Proof.
  unfold play_audio.
  destruct (platform_system rt =? "Darwin")%string; [auto with frame|].
  destruct (platform_system rt =? "Windows")%string; auto with frame.
Qed.

Lemma keeps_parse_response (text : string) :
  keeps_objects (parse_response rt text).
Proof. unfold parse_response. auto 10 with frame. Qed.

Lemma keeps_select_spoken_line (result : pyvalue) :
  keeps_objects (select_spoken_line rt result).
Proof. unfold select_spoken_line. auto with frame. Qed.

#[local] Hint Resolve keeps_call_build_ai_input keeps_send_to_openai
  keeps_speak_with_openai keeps_play_audio keeps_parse_response
  keeps_select_spoken_line : frame.

Lemma keeps_screen_mock_call (text : string) (caller_id : option string)
  (call_type : string) :
  keeps_objects (screen_mock_call rt text caller_id call_type).
Proof.
  unfold screen_mock_call.
  repeat (apply keeps_bind; [auto with frame | intros ?]).
  auto with frame.
Qed.

Lemma keeps_run (op : operation rt) (st : state (Path rt)) (r : ref)
  (c : CallContext) :
  nth_error (objects st) r = Some c ->
  nth_error (objects (run rt op st)) r = Some c.
Proof.
  intros H. destruct op; cbn [run].
  - now apply keeps_call_build_ai_input.
  - now apply keeps_send_to_openai.
  - now apply keeps_speak_with_openai.
  - now apply keeps_play_audio.
  - now apply keeps_screen_mock_call.
Qed.

End Frame.

(** C9: a call context is immutable once constructed.  Whatever
    operations of the program run afterwards, in whatever order and with
    whatever outcome, the object behind a reference keeps its caller
    identifier, its call type and its user age. *)
Theorem call_context_immutable
  (rt : Runtime) (ops : list (operation rt)) (st : state (Path rt))
  (r : ref) (c : CallContext) :
  nth_error (objects st) r = Some c ->
  nth_error (objects (run_all rt ops st)) r = Some c.
Proof.
  unfold run_all. revert st.
  induction ops as [|op ops IH]; intros st H; simpl; [exact H|].
  apply IH, keeps_run, H.
Qed.

(** A context that outlives four operations, a whole screening among them. *)
Lemma call_context_immutable_witness :
  nth_error
    (objects
       (run_all (reference_runtime "Linux" "not json")
          [BuildAiInput _ "Hello" 0;
           ScreenMockCall _ "Hello" (Some "+353 83 123 4567") "incoming";
           SpeakWithOpenai _ (PyStr "Goodbye.") None;
           PlayAudio (reference_runtime "Linux" "not json")
                     "/srv/app/call_response.mp3"]
          {| objects := [{| caller_id := None; call_type := "missed";
                            user_age := 79 |}];
             trace := [] |}))
    0
  = Some {| caller_id := None; call_type := "missed"; user_age := 79 |}.
Proof.
  apply (call_context_immutable (reference_runtime "Linux" "not json")).
  reflexivity.
Defined.

(** ** Response parser *)

(** What [json.loads] returns, the parsing step returns, and nothing is
    printed. *)
Lemma parse_response_decoded (rt : Runtime) (text : string) (v : pyvalue)
  (st : state (Path rt)) :
  json_loads rt text = Ok v -> parse_response rt text st = (Ok v, st).
Proof.
  intros H. unfold parse_response, try_except, lift. now rewrite H.
Qed.

(** C1, as the code has it: for every text that [json.loads] rejects with
    [JSONDecodeError] (the literal text [not json], say), the parsing step
    does not raise and produces the mapping whose only entry is the spoken
    response, set to the fixed fallback line; the two diagnostic lines are
    printed. *)
Theorem parse_response_falls_back
  (rt : Runtime) (ai_response_text : string) (st : state (Path rt)) :
  json_loads rt ai_response_text = Raise JSONDecodeError ->
  parse_response rt ai_response_text st
  = (Ok (PyDict [("spoken_response_to_caller",
                  PyStr "We cannot proceed with this call. Goodbye.")]),
     {| objects := objects st;
        trace := trace st
                 ++ [Print [PyStr "ERROR: Could not parse JSON from model response."];
                     Print [PyStr "Falling back to a generic spoken line."]] |}).
Proof.
  intros H. unfold parse_response, try_except, lift. rewrite H.
  cbn. now rewrite <- app_assoc.
Qed.

(** C1, as it is stated, fails on a text that is not valid JSON and that
    the decoder accepts all the same.  [NaN] is no JSON; [json.loads]
    reads it as a float, so the parsing step returns that float and no
    fallback mapping, prints nothing, and the run ends at the lookup with
    [AttributeError]. *)
Lemma nan_is_decoded :
  valid_json "NaN" = false
  /\ parse_response (reference_runtime "Linux" "NaN") "NaN"
       (initial_state string)
     = (Ok (PyFloat "NaN"), initial_state string)
  /\ fst (screen_mock_call (reference_runtime "Linux" "NaN")
            "Hello" None "incoming" (initial_state string))
     = Raise AttributeError.
Proof.
  repeat split; vm_compute; reflexivity.
Qed.

(** On the reference decoder, a text that is not valid JSON is rejected
    with [JSONDecodeError], or decoded to a value that holds one of the
    three constants. *)
Lemma invalid_json_cases (s : string) :
  valid_json s = false ->
  Json.loads s = Raise JSONDecodeError
  \/ exists v, Json.loads s = Ok v /\ has_constant v = true.
Proof.
  unfold valid_json, Json.loads.
  destruct (Json.scan_once _ _) as [[v rest]|]; [|now left].
  destruct (Json.is_empty _); [|now left].
  intros H. right. exists v. split; [reflexivity|].
  now destruct (has_constant v).
Qed.

(** The reference decoder rejects the text [not json]. *)
Lemma parse_response_falls_back_witness :
  parse_response (reference_runtime "Linux" "not json") "not json"
    (initial_state string)
  = (Ok (PyDict [("spoken_response_to_caller",
                  PyStr "We cannot proceed with this call. Goodbye.")]),
     {| objects := [];
        trace := [Print [PyStr "ERROR: Could not parse JSON from model response."];
                  Print [PyStr "Falling back to a generic spoken line."]] |}).
Proof.
  apply (parse_response_falls_back (reference_runtime "Linux" "not json")
           "not json" (initial_state string)).
  vm_compute. reflexivity.
Defined.

(** Any other exception of the decoder is not caught. *)
Lemma parse_response_propagates (rt : Runtime) (text : string) (e : exn)
  (st : state (Path rt)) :
  json_loads rt text = Raise e -> e <> JSONDecodeError ->
  parse_response rt text st = (Raise e, st).
Proof.
  intros H Hne. unfold parse_response, try_except, lift. rewrite H.
  destruct e; try reflexivity. now contradiction Hne.
Qed.

(** The spoken line of a decoded object: the value under the key, or the
    fallback line; nothing is printed. *)
Lemma resolve_spoken_line_object (rt : Runtime) (text : string)
  (entries : list (string * pyvalue)) (st : state (Path rt)) :
  json_loads rt text = Ok (PyDict entries) ->
  resolve_spoken_line rt text st
  = (Ok (dict_get entries SPOKEN_KEY (PyStr FALLBACK_LINE)), st).
Proof.
  intros H. unfold resolve_spoken_line.
  rewrite (bind_ok _ _ _ _ _ (parse_response_decoded rt text _ st H)).
  reflexivity.
Qed.

(** A decoded value that is not an object has no [get]. *)
Lemma resolve_spoken_line_not_object (rt : Runtime) (text : string)
  (v : pyvalue) (st : state (Path rt)) :
  json_loads rt text = Ok v ->
  (forall entries, v <> PyDict entries) ->
  resolve_spoken_line rt text st = (Raise AttributeError, st).
Proof.
  intros H Hv. unfold resolve_spoken_line.
  rewrite (bind_ok _ _ _ _ _ (parse_response_decoded rt text _ st H)).
  destruct v; try reflexivity. now contradiction (Hv entries).
Qed.

(** ** Pipeline *)

Lemma speech_inputs_app {Path : Type} (a b : list (event Path)) :
  speech_inputs (a ++ b) = (speech_inputs a ++ speech_inputs b)%list.
Proof. apply flat_map_app. Qed.

Lemma log_log {Path : Type} (st : state Path) (a b : list (event Path)) :
  log (log st a) b = log st (a ++ b)%list.
Proof. unfold log. cbn. now rewrite app_assoc. Qed.

Lemma log_nil {Path : Type} (st : state Path) :
  log st [] = st.
Proof. unfold log. rewrite app_nil_r. now destruct st. Qed.

(** A print is recorded, and gets through when the console takes the
    text. *)
Lemma print_outcome (rt : Runtime) (args : list pyvalue)
  (st : state (Path rt)) :
  print rt args st
  = (if can_print rt args then Ok tt else Raise UnicodeEncodeError,
     log st [Print args]).
Proof. reflexivity. Qed.

Lemma print_ascii (rt : Runtime) (args : list pyvalue)
  (st : state (Path rt)) :
  ascii_args args = true -> print rt args st = (Ok tt, log st [Print args]).
Proof.
  intros H. rewrite print_outcome. unfold can_print. now rewrite H.
Qed.



(** The spoken line, by what the decoder answers. *)
Lemma resolve_spoken_line_cases (rt : Runtime) (reply : string)
  (st : state (Path rt)) :
  resolve_spoken_line rt reply st
  = match json_loads rt reply with
    | Ok (PyDict entries) =>
        (Ok (dict_get entries SPOKEN_KEY (PyStr FALLBACK_LINE)), st)
    | Ok _ => (Raise AttributeError, st)
    | Raise JSONDecodeError => (Ok (PyStr FALLBACK_LINE), log st diagnostics)
    | Raise e => (Raise e, st)
    end.
Proof.
  unfold resolve_spoken_line, bind, parse_response, try_except, lift.
  destruct (json_loads rt reply) as [[]|[]]; try reflexivity.
  cbn. unfold log, diagnostics. now rewrite <- app_assoc.
Qed.

(** From the chosen line on, by what the console and the speech service
    answer. *)
Lemma speak_and_play_cases (rt : Runtime) (line : pyvalue)
  (st : state (Path rt)) :
  speak_and_play rt line st
  = if can_print rt [PyStr "AI wants to say to the caller:"; line] then
      match speech_create rt (trace st ++ [announce line])%list
              "gpt-4o-mini-tts" "alloy" line
              "Speak clearly, calmly, and politely." with
      | Raise e => (Raise e, log st [announce line; speech_event line])
      | Ok _ =>
          match stream_to_file rt
                  (trace st ++ [announce line; speech_event line])%list
                  (default_audio_path rt) with
          | Raise e =>
              (Raise e,
               log st [announce line; speech_event line;
                       StreamToFile (default_audio_path rt)])
          | Ok _ =>
              if can_print rt
                   [PyStr ("Audio saved to: "
                           ++ path_str rt (default_audio_path rt))]
              then
                play_audio rt (default_audio_path rt)
                  (log st [announce line; speech_event line;
                           StreamToFile (default_audio_path rt);
                           saved_event rt (default_audio_path rt)])
              else
                (Raise UnicodeEncodeError,
                 log st [announce line; speech_event line;
                         StreamToFile (default_audio_path rt);
                         saved_event rt (default_audio_path rt)])
          end
      end
    else (Raise UnicodeEncodeError, log st [announce line]).
Proof.
  unfold speak_and_play. unfold bind at 1. rewrite print_outcome.
  fold (@announce (Path rt) line).
  destruct (can_print rt [_; line]); [|reflexivity].
  unfold speak_with_openai, bind, perform, ret, log, speech_event,
    default_audio_path, filename_or_default. cbn [trace objects].
  destruct (speech_create rt _ _ _ _ _);
    [|now rewrite <- !app_assoc].
  rewrite <- !app_assoc. cbn [app].
  destruct (stream_to_file rt _ _);
    [|cbn [trace objects]; now rewrite <- ?app_assoc].
  rewrite print_outcome. unfold log, saved_event. cbn [trace objects].
  rewrite <- !app_assoc. cbn [app].
  destruct (can_print rt [_]); reflexivity.
Qed.

(** A whole run, by what the classification service and the console
    answer. *)
Lemma screen_mock_call_cases (rt : Runtime) (text : string)
  (caller_id : option string) (call_type : string) (st : state (Path rt)) :
  screen_mock_call rt text caller_id call_type st
  = match responses_create rt (trace st) "gpt-5.1" BASE_INSTRUCTIONS
            (build_ai_input text (screened_context caller_id call_type)) with
    | Raise e =>
        (Raise e,
         {| objects := (objects st ++ [screened_context caller_id call_type])%list;
            trace := (trace st ++ [request_event text caller_id call_type])%list |})
    | Ok reply =>
        if can_print rt [PyStr reply] then
          bind (resolve_spoken_line rt reply) (speak_and_play rt)
            {| objects := (objects st ++ [screened_context caller_id call_type])%list;
               trace := (trace st
                         ++ request_event text caller_id call_type
                            :: banner reply)%list |}
        else
          (Raise UnicodeEncodeError,
           {| objects := (objects st ++ [screened_context caller_id call_type])%list;
              trace := (trace st
                        ++ [request_event text caller_id call_type;
                            Print [PyStr (nl ++ "===== RAW AI RESPONSE TEXT =====")];
                            Print [PyStr reply]])%list |})
    end.
Proof.
  unfold screen_mock_call.
  erewrite bind_ok by reflexivity.
  erewrite bind_ok
    by (apply call_build_ai_input_ok;
        [apply nth_error_new | apply default_age_formats]).
  unfold send_to_openai. unfold bind at 1. unfold perform at 1. cbn [trace objects].
  fold (screened_context caller_id call_type).
  destruct (responses_create rt _ _ _ _) as [reply|e]; [|reflexivity].
  erewrite bind_ok by (apply print_ascii; reflexivity).
  unfold bind at 1. rewrite print_outcome.
  destruct (can_print rt [PyStr reply]).
  - erewrite bind_ok by (apply print_ascii; reflexivity).
    unfold resolve_spoken_line. rewrite bind_assoc.
    unfold request_event, banner, log. cbn [trace objects].
    rewrite <- !app_assoc. reflexivity.
  - unfold request_event, log. cbn [trace objects].
    rewrite <- !app_assoc. reflexivity.
Qed.

(** Every way a run can go: the classification answers or not, the raw
    answer is printed or not, it decodes or not, to an object or not, the
    chosen line is printed or not, the speech service accepts the request
    or not, streams or not, the saved path is printed or not, and the host
    is one of three kinds. *)
Ltac explore_run rt :=
  rewrite screen_mock_call_cases;
  destruct (responses_create rt _ _ _ _) as [?reply|?e];
  [ destruct (can_print rt [PyStr _]);
    [ unfold bind; rewrite resolve_spoken_line_cases;
      destruct (json_loads rt _) as [[]|[]]; cbv beta iota;
      try (rewrite speak_and_play_cases;
           destruct (can_print rt [_; _]);
           [ destruct (speech_create rt _ _ _ _ _);
             [ destruct (stream_to_file rt _ _);
               [ destruct (can_print rt [_]);
                 [ unfold play_audio, perform;
                   destruct (platform_system rt =? "Darwin")%string eqn:?HD;
                   [| destruct (platform_system rt =? "Windows")%string eqn:?HW ]
                 | ]
               | ]
             | ]
           | ])
    | ]
  | ];
  unfold log, banner, diagnostics, saved_event;
  cbn [snd fst trace objects];
  rewrite <- ?app_assoc; cbn [app].

(** The speech inputs of a trace that is written out. *)
Ltac count_inputs :=
  unfold log, request_event, banner, diagnostics, announce, speech_event,
    saved_event;
  cbn [snd trace];
  rewrite ?speech_inputs_app; cbn [speech_inputs flat_map app];
  rewrite ?app_nil_r; try reflexivity.

(** What reaches speech synthesis from the chosen line on. *)
Lemma speak_and_play_inputs (rt : Runtime) (line : pyvalue)
  (st : state (Path rt)) :
  speech_inputs (trace (snd (speak_and_play rt line st)))
  = (speech_inputs (trace st) ++ spoken rt line)%list.
Proof.
  rewrite speak_and_play_cases. unfold spoken.
  destruct (can_print rt [_; line]); [|count_inputs].
  destruct (speech_create rt _ _ _ _ _); [|count_inputs].
  destruct (stream_to_file rt _ _); [|count_inputs].
  destruct (can_print rt [_]); [|count_inputs].
  unfold play_audio, perform.
  destruct (platform_system rt =? "Darwin")%string;
    [|destruct (platform_system rt =? "Windows")%string];
    count_inputs.
Qed.

(** What reaches speech synthesis in a whole run: nothing, unless the
    classification service answers and the raw answer is printed; then
    the line of the decoded object or the fallback line, when the print
    that announces it gets through. *)
Lemma screen_mock_call_inputs (rt : Runtime) (text : string)
  (caller_id : option string) (call_type : string) (st : state (Path rt)) :
  speech_inputs (trace (snd (screen_mock_call rt text caller_id call_type st)))
  = (speech_inputs (trace st)
     ++ match responses_create rt (trace st) "gpt-5.1" BASE_INSTRUCTIONS
                (build_ai_input text (screened_context caller_id call_type)) with
        | Ok reply =>
            if can_print rt [PyStr reply] then
              match json_loads rt reply with
              | Ok (PyDict entries) =>
                  spoken rt (dict_get entries SPOKEN_KEY (PyStr FALLBACK_LINE))
              | Ok _ => []
              | Raise JSONDecodeError => spoken rt (PyStr FALLBACK_LINE)
              | Raise _ => []
              end
            else []
        | Raise _ => []
        end)%list.
Proof.
  rewrite screen_mock_call_cases.
  destruct (responses_create rt _ _ _ _) as [reply|e]; [|count_inputs].
  destruct (can_print rt [PyStr reply]); [|count_inputs].
  unfold bind. rewrite resolve_spoken_line_cases.
  destruct (json_loads rt reply) as [[]|[]]; cbv beta iota;
    try rewrite speak_and_play_inputs; count_inputs.
Qed.



(** A spoken line the console cannot encode: the object holds the key, the
    value is a lone surrogate, and the run ends at the print of the line
    with nothing passed on to speech synthesis. *)
Example unprintable_line_is_not_spoken :
  fst (screen_mock_call (reference_runtime "Linux" reply_with_surrogate)
         "Hello" None "incoming" (initial_state string))
  = Raise UnicodeEncodeError
  /\ speech_inputs
       (trace (snd (screen_mock_call
                      (reference_runtime "Linux" reply_with_surrogate)
                      "Hello" None "incoming" (initial_state string))))
     = [].
Proof.
  split; vm_compute; reflexivity.
Qed.




(** ** Playback *)

(** C5: for every OS identity, the playback invoker takes exactly one
    invocation path, the one designated for the identity: [afplay] on
    "Darwin", [os.startfile] on "Windows", [xdg-open] on every other
    identity.  The run performs that one effect and no other. *)
Theorem play_audio_dispatch
  (rt : Runtime) (audio_path : Path rt) (st : state (Path rt)) :
  (exists e, trace (snd (play_audio rt audio_path st)) = (trace st ++ [e])%list)
  /\ (platform_system rt = "Darwin" ->
      trace (snd (play_audio rt audio_path st))
      = (trace st ++ [SubprocessRun ["afplay"; path_str rt audio_path] false])%list)
  /\ (platform_system rt = "Windows" ->
      trace (snd (play_audio rt audio_path st))
      = (trace st ++ [OsStartfile (path_str rt audio_path)])%list)
  /\ (platform_system rt <> "Darwin" -> platform_system rt <> "Windows" ->
      trace (snd (play_audio rt audio_path st))
      = (trace st ++ [SubprocessRun ["xdg-open"; path_str rt audio_path] false])%list).
Proof.
  unfold play_audio. repeat split.
  - destruct (platform_system rt =? "Darwin")%string; [eexists; reflexivity|].
    destruct (platform_system rt =? "Windows")%string; eexists; reflexivity.
  - intros ->. reflexivity.
  - intros ->. reflexivity.
  - intros HD HW.
    destruct (String.eqb_spec (platform_system rt) "Darwin") as [E|_];
      [contradiction|].
    destruct (String.eqb_spec (platform_system rt) "Windows") as [E|_];
      [contradiction|].
    reflexivity.
Qed.

(** The three paths, on the three kinds of host. *)
Lemma play_audio_dispatch_witness :
  trace (snd (play_audio (reference_runtime "Darwin" "{}")
                "/srv/app/call_response.mp3" (initial_state string)))
  = [SubprocessRun ["afplay"; "/srv/app/call_response.mp3"] false]
  /\ trace (snd (play_audio (reference_runtime "Windows" "{}")
                   "/srv/app/call_response.mp3" (initial_state string)))
     = [OsStartfile "/srv/app/call_response.mp3"]
  /\ trace (snd (play_audio (reference_runtime "Linux" "{}")
                   "/srv/app/call_response.mp3" (initial_state string)))
     = [SubprocessRun ["xdg-open"; "/srv/app/call_response.mp3"] false].
Proof.
  split; [|split].
  - apply (play_audio_dispatch (reference_runtime "Darwin" "{}")
             "/srv/app/call_response.mp3" (initial_state string)).
    reflexivity.
  - apply (play_audio_dispatch (reference_runtime "Windows" "{}")
             "/srv/app/call_response.mp3" (initial_state string)).
    reflexivity.
  - apply (play_audio_dispatch (reference_runtime "Linux" "{}")
             "/srv/app/call_response.mp3" (initial_state string));
      discriminate.
Defined.

(** The outcome of the playback is the outcome of the one call made. *)
Lemma play_audio_outcome (rt : Runtime) (audio_path : Path rt)
  (st : state (Path rt)) :
  fst (play_audio rt audio_path st)
  = if (platform_system rt =? "Darwin")%string then
      subprocess_run rt (trace st) ["afplay"; path_str rt audio_path] false
    else if (platform_system rt =? "Windows")%string then
      os_startfile rt (trace st) (path_str rt audio_path)
    else
      subprocess_run rt (trace st) ["xdg-open"; path_str rt audio_path] false.
Proof.
  unfold play_audio.
  destruct (platform_system rt =? "Darwin")%string; [reflexivity|].
  destruct (platform_system rt =? "Windows")%string; reflexivity.
Qed.

(** An identity that differs in case only is none of the two named ones. *)
Example play_audio_lowercase :
  trace (snd (play_audio (reference_runtime "darwin" "{}")
                "/srv/app/call_response.mp3" (initial_state string)))
  = [SubprocessRun ["xdg-open"; "/srv/app/call_response.mp3"] false].
Proof. reflexivity. Qed.

(** ** Speech synthesizer *)

(** Whatever the services answer, a path that is returned is the resolved
    one, and the audio was streamed to it. *)
Lemma speak_with_openai_returned (rt : Runtime) (text : pyvalue)
  (filename : option string) (st st' : state (Path rt)) (p : Path rt) :
  speak_with_openai rt text filename st = (Ok p, st') ->
  p = joinpath rt (module_dir rt) (filename_or_default filename)
  /\ trace st'
     = (trace st
        ++ [SpeechCreate "gpt-4o-mini-tts" "alloy" text
              "Speak clearly, calmly, and politely.";
            StreamToFile p])%list.
Proof.
  unfold speak_with_openai, bind, perform, ret. cbn.
  destruct (speech_create rt _ _ _ _ _); [|discriminate].
  destruct (stream_to_file rt _ _); [|discriminate].
  intros H. injection H as <- <-. cbn. now rewrite <- app_assoc.
Qed.

(** C7: the speech synthesizer returns the program's own directory joined
    with the file name it is given, for every reply text and file name; when
    no file name is given the name is "call_response.mp3".  The audio is
    streamed to that path, and any other run with the same file name,
    whatever its text and its state, returns the same path and streams to
    it again. *)
Theorem speak_with_openai_returns_path
  (rt : Runtime) (text : pyvalue) (filename : option string)
  (st : state (Path rt)) :
  speech_create rt (trace st) "gpt-4o-mini-tts" "alloy" text
    "Speak clearly, calmly, and politely." = Ok tt ->
  stream_to_file rt
    (trace st ++ [SpeechCreate "gpt-4o-mini-tts" "alloy" text
                    "Speak clearly, calmly, and politely."])%list
    (joinpath rt (module_dir rt)
       match filename with
       | Some given => given
       | None => "call_response.mp3"
       end) = Ok tt ->
  speak_with_openai rt text filename st
  = (Ok (joinpath rt (module_dir rt)
           match filename with
           | Some given => given
           | None => "call_response.mp3"
           end),
     {| objects := objects st;
        trace := (trace st
                  ++ [SpeechCreate "gpt-4o-mini-tts" "alloy" text
                        "Speak clearly, calmly, and politely.";
                      StreamToFile
                        (joinpath rt (module_dir rt)
                           match filename with
                           | Some given => given
                           | None => "call_response.mp3"
                           end)])%list |})
  /\ (forall text' st' st'' p,
         speak_with_openai rt text' filename st' = (Ok p, st'') ->
         p = joinpath rt (module_dir rt)
               match filename with
               | Some given => given
               | None => "call_response.mp3"
               end
         /\ In (StreamToFile p) (trace st'')).
Proof.
  intros Hcreate Hstream. split.
  - unfold speak_with_openai, bind, perform, ret, filename_or_default,
      DEFAULT_FILENAME. cbn [trace objects].
    rewrite Hcreate. cbn [trace objects]. rewrite Hstream.
    now rewrite <- app_assoc.
  - intros text' st' st'' p H.
    destruct (speak_with_openai_returned rt text' filename st' st'' p H)
      as [Hp Htrace].
    split; [exact Hp|].
    rewrite Htrace. apply in_or_app. right. right. left. reflexivity.
Qed.

(** A file name that is given, and the file name left out, on a host whose
    services succeed. *)
Lemma speak_with_openai_returns_path_witness :
  speak_with_openai (reference_runtime "Linux" "{}")
    (PyStr "Please call back later.") (Some "reply.mp3")
    (initial_state string)
  = (Ok "/srv/app/reply.mp3",
     {| objects := [];
        trace := [SpeechCreate "gpt-4o-mini-tts" "alloy"
                    (PyStr "Please call back later.")
                    "Speak clearly, calmly, and politely.";
                  StreamToFile "/srv/app/reply.mp3"] |})
  /\ speak_with_openai (reference_runtime "Linux" "{}")
       (PyStr "We cannot proceed with this call. Goodbye.") None
       (initial_state string)
     = (Ok "/srv/app/call_response.mp3",
        {| objects := [];
           trace := [SpeechCreate "gpt-4o-mini-tts" "alloy"
                       (PyStr "We cannot proceed with this call. Goodbye.")
                       "Speak clearly, calmly, and politely.";
                     StreamToFile "/srv/app/call_response.mp3"] |}).
Proof.
  split.
  - apply (speak_with_openai_returns_path (reference_runtime "Linux" "{}")
             (PyStr "Please call back later.") (Some "reply.mp3")
             (initial_state string));
      reflexivity.
  - apply (speak_with_openai_returns_path (reference_runtime "Linux" "{}")
             (PyStr "We cannot proceed with this call. Goodbye.") None
             (initial_state string));
      reflexivity.
Defined.

(** A service error is not handled: it is the outcome, and no path is
    returned. *)
Lemma speak_with_openai_service_error (rt : Runtime) (text : pyvalue)
  (filename : option string) (st : state (Path rt)) (e : exn) :
  speech_create rt (trace st) "gpt-4o-mini-tts" "alloy" text
    "Speak clearly, calmly, and politely." = Raise e ->
  fst (speak_with_openai rt text filename st) = Raise e.
Proof.
  intros H. unfold speak_with_openai, bind, perform, ret. cbn.
  now rewrite H.
Qed.

(** * Further properties *)

(** ** Errors of the services *)

(** X1: an error of the classification service ends the run with that
    error, right after the request: nothing is printed, no line is spoken
    (the fallback line is for undecodable answers only), nothing is
    played. *)
Theorem classification_error_stops_run
  (rt : Runtime) (mock_call_text : string) (caller_id : option string)
  (call_type : string) (st : state (Path rt)) (e : exn) :
  responses_create rt (trace st) "gpt-5.1" BASE_INSTRUCTIONS
    (build_ai_input mock_call_text (screened_context caller_id call_type))
  = Raise e ->
  screen_mock_call rt mock_call_text caller_id call_type st
  = (Raise e,
     {| objects := (objects st ++ [screened_context caller_id call_type])%list;
        trace := (trace st
                  ++ [request_event mock_call_text caller_id call_type])%list |}).
Proof.
  intros H. rewrite screen_mock_call_cases, H. reflexivity.
Qed.

(** The entry point on a host without network. *)
Lemma classification_error_stops_run_witness :
  main (scripted_runtime "Linux" Json.loads
          (Raise (RaisedBy "APIConnectionError")) (Ok tt) (Ok tt))
    (initial_state string)
  = (Raise (RaisedBy "APIConnectionError"),
     {| objects := [screened_context (Some "+353 83 123 4567") "incoming"];
        trace := [request_event mock_call (Some "+353 83 123 4567")
                    "incoming"] |}).
Proof.
  apply (classification_error_stops_run
           (scripted_runtime "Linux" Json.loads
              (Raise (RaisedBy "APIConnectionError")) (Ok tt) (Ok tt))
           mock_call (Some "+353 83 123 4567") "incoming"
           (initial_state string)).
  reflexivity.
Defined.

(** X2: once the raw answer and the chosen line are printed, an error of
    the speech service ends the run with that error before anything is
    played.  When the request fails nothing is streamed; when the
    streaming fails the saved path is not printed. *)
Theorem synthesis_error_stops_before_playback
  (rt : Runtime) (mock_call_text : string) (caller_id : option string)
  (call_type reply : string) (entries : list (string * pyvalue))
  (st : state (Path rt)) (e : exn) :
  responses_create rt (trace st) "gpt-5.1" BASE_INSTRUCTIONS
    (build_ai_input mock_call_text (screened_context caller_id call_type))
  = Ok reply ->
  can_print rt [PyStr reply] = true ->
  json_loads rt reply = Ok (PyDict entries) ->
  can_print rt [PyStr "AI wants to say to the caller:";
                dict_get entries SPOKEN_KEY (PyStr FALLBACK_LINE)] = true ->
  (speech_create rt
     (trace st ++ request_event mock_call_text caller_id call_type
        :: banner reply
        ++ [announce (dict_get entries SPOKEN_KEY (PyStr FALLBACK_LINE))])%list
     "gpt-4o-mini-tts" "alloy"
     (dict_get entries SPOKEN_KEY (PyStr FALLBACK_LINE))
     "Speak clearly, calmly, and politely." = Raise e ->
   screen_mock_call rt mock_call_text caller_id call_type st
   = (Raise e,
      {| objects := (objects st ++ [screened_context caller_id call_type])%list;
         trace := (trace st
                   ++ request_event mock_call_text caller_id call_type
                      :: banner reply
                      ++ [announce (dict_get entries SPOKEN_KEY
                                      (PyStr FALLBACK_LINE));
                          speech_event (dict_get entries SPOKEN_KEY
                                          (PyStr FALLBACK_LINE))])%list |}))
  /\ (speech_create rt
        (trace st ++ request_event mock_call_text caller_id call_type
           :: banner reply
           ++ [announce (dict_get entries SPOKEN_KEY (PyStr FALLBACK_LINE))])%list
        "gpt-4o-mini-tts" "alloy"
        (dict_get entries SPOKEN_KEY (PyStr FALLBACK_LINE))
        "Speak clearly, calmly, and politely." = Ok tt ->
      stream_to_file rt
        (trace st ++ request_event mock_call_text caller_id call_type
           :: banner reply
           ++ [announce (dict_get entries SPOKEN_KEY (PyStr FALLBACK_LINE));
               speech_event (dict_get entries SPOKEN_KEY
                               (PyStr FALLBACK_LINE))])%list
        (default_audio_path rt) = Raise e ->
      screen_mock_call rt mock_call_text caller_id call_type st
      = (Raise e,
         {| objects := (objects st ++ [screened_context caller_id call_type])%list;
            trace := (trace st
                      ++ request_event mock_call_text caller_id call_type
                         :: banner reply
                         ++ [announce (dict_get entries SPOKEN_KEY
                                         (PyStr FALLBACK_LINE));
                             speech_event (dict_get entries SPOKEN_KEY
                                             (PyStr FALLBACK_LINE));
                             StreamToFile (default_audio_path rt)])%list |})).
Proof.
  intros Hreply Hraw Hloads Hline.
  rewrite screen_mock_call_cases, Hreply, Hraw. unfold bind.
  rewrite resolve_spoken_line_cases, Hloads, speak_and_play_cases, Hline.
  cbn [trace objects]. rewrite <- !app_assoc. cbn [app].
  split.
  - intros H. rewrite H. unfold log. cbn [trace objects].
    now rewrite <- !app_assoc.
  - intros H1 H2. rewrite H1, H2. unfold log. cbn [trace objects].
    now rewrite <- !app_assoc.
Qed.

(** The speech request refused, and the stream broken, on an answer that
    holds the spoken line. *)
Lemma synthesis_error_stops_before_playback_witness :
  (fst (screen_mock_call
          (scripted_runtime "Linux" Json.loads (Ok reply_with_line)
             (Raise (RaisedBy "RateLimitError")) (Ok tt))
          "Hello" None "incoming" (initial_state string))
   = Raise (RaisedBy "RateLimitError"))
  /\ (fst (screen_mock_call
             (scripted_runtime "Linux" Json.loads (Ok reply_with_line)
                (Ok tt) (Raise (RaisedBy "OSError")))
             "Hello" None "incoming" (initial_state string))
      = Raise (RaisedBy "OSError")).
Proof.
  split.
  - rewrite (proj1 (synthesis_error_stops_before_playback
                      (scripted_runtime "Linux" Json.loads (Ok reply_with_line)
                         (Raise (RaisedBy "RateLimitError")) (Ok tt))
                      "Hello" None "incoming" reply_with_line
                      [("classification", PyStr "likely_scam");
                       ("spoken_response_to_caller",
                        PyStr "Please call back later.")]
                      (initial_state string) (RaisedBy "RateLimitError")
                      eq_refl eq_refl eq_refl eq_refl) eq_refl).
    reflexivity.
  - rewrite (proj2 (synthesis_error_stops_before_playback
                      (scripted_runtime "Linux" Json.loads (Ok reply_with_line)
                         (Ok tt) (Raise (RaisedBy "OSError")))
                      "Hello" None "incoming" reply_with_line
                      [("classification", PyStr "likely_scam");
                       ("spoken_response_to_caller",
                        PyStr "Please call back later.")]
                      (initial_state string) (RaisedBy "OSError")
                      eq_refl eq_refl eq_refl eq_refl) eq_refl eq_refl).
    reflexivity.
Defined.

(** ** Whole runs *)



(** X4: an answer that the console takes and that decodes to anything but
    an object ends the run with [AttributeError] right after the raw
    answer is printed: no fallback line is chosen, nothing is spoken,
    nothing is played. *)
Theorem non_object_answer_stops_run
  (rt : Runtime) (mock_call_text : string) (caller_id : option string)
  (call_type reply : string) (v : pyvalue) (st : state (Path rt)) :
  responses_create rt (trace st) "gpt-5.1" BASE_INSTRUCTIONS
    (build_ai_input mock_call_text (screened_context caller_id call_type))
  = Ok reply ->
  can_print rt [PyStr reply] = true ->
  json_loads rt reply = Ok v ->
  (forall entries, v <> PyDict entries) ->
  screen_mock_call rt mock_call_text caller_id call_type st
  = (Raise AttributeError,
     {| objects := (objects st ++ [screened_context caller_id call_type])%list;
        trace := (trace st
                  ++ request_event mock_call_text caller_id call_type
                     :: banner reply)%list |}).
Proof.
  intros Hreply Hraw Hloads Hv.
  rewrite screen_mock_call_cases, Hreply, Hraw. unfold bind.
  rewrite resolve_spoken_line_cases, Hloads.
  destruct v; try reflexivity. now contradiction (Hv entries).
Qed.

(** The answer [null]. *)
Lemma non_object_answer_stops_run_witness :
  screen_mock_call (reference_runtime "Linux" "null")
    "Hello" None "incoming" (initial_state string)
  = (Raise AttributeError,
     {| objects := [screened_context None "incoming"];
        trace := request_event "Hello" None "incoming" :: banner "null" |}).
Proof.
  apply (non_object_answer_stops_run (reference_runtime "Linux" "null")
           "Hello" None "incoming" "null" PyNone (initial_state string)).
  - reflexivity.
  - reflexivity.
  - vm_compute. reflexivity.
  - intros entries. discriminate.
Defined.

(** X5: an answer that the console takes and the decoder rejects does not
    end the run.  After the raw answer the two diagnostic lines are
    printed, and the run goes on as for a chosen line with the fallback
    line, which is the one text that reaches speech synthesis. *)
Theorem undecodable_answer_speaks_fallback
  (rt : Runtime) (mock_call_text : string) (caller_id : option string)
  (call_type reply : string) (st : state (Path rt)) :
  responses_create rt (trace st) "gpt-5.1" BASE_INSTRUCTIONS
    (build_ai_input mock_call_text (screened_context caller_id call_type))
  = Ok reply ->
  can_print rt [PyStr reply] = true ->
  json_loads rt reply = Raise JSONDecodeError ->
  screen_mock_call rt mock_call_text caller_id call_type st
  = speak_and_play rt (PyStr "We cannot proceed with this call. Goodbye.")
      {| objects := (objects st ++ [screened_context caller_id call_type])%list;
         trace := (trace st
                   ++ request_event mock_call_text caller_id call_type
                      :: banner reply ++ diagnostics)%list |}
  /\ speech_inputs
       (trace (snd (screen_mock_call rt mock_call_text caller_id call_type st)))
     = (speech_inputs (trace st)
        ++ [PyStr "We cannot proceed with this call. Goodbye."])%list.
Proof.
  intros Hreply Hraw Hloads. split.
  - rewrite screen_mock_call_cases, Hreply, Hraw. unfold bind.
    rewrite resolve_spoken_line_cases, Hloads.
    unfold log. cbn [trace objects]. now rewrite <- !app_assoc.
  - rewrite screen_mock_call_inputs, Hreply, Hraw, Hloads. reflexivity.
Qed.

(** The entry point on an answer that is no JSON. *)
Lemma undecodable_answer_speaks_fallback_witness :
  speech_inputs
    (trace (snd (main (reference_runtime "Linux" "Sorry, I cannot help.")
                   (initial_state string))))
  = [PyStr "We cannot proceed with this call. Goodbye."].
Proof.
  apply (undecodable_answer_speaks_fallback
           (reference_runtime "Linux" "Sorry, I cannot help.")
           mock_call (Some "+353 83 123 4567") "incoming"
           "Sorry, I cannot help." (initial_state string)).
  - reflexivity.
  - reflexivity.
  - vm_compute. reflexivity.
Defined.

(** X6: whatever the services answer, a run constructs exactly one call
    context, with the age left at 79; its first effect is the one
    classification request it makes, for the prompt of that context; and
    it makes at most one speech request. *)
Theorem run_requests_once
  (rt : Runtime) (mock_call_text : string) (caller_id : option string)
  (call_type : string) (st : state (Path rt)) :
  objects (snd (screen_mock_call rt mock_call_text caller_id call_type st))
  = (objects st
     ++ [{| caller_id := caller_id; call_type := call_type; user_age := 79 |}])%list
  /\ exists rest,
       trace (snd (screen_mock_call rt mock_call_text caller_id call_type st))
       = (trace st
          ++ request_event mock_call_text caller_id call_type :: rest)%list
       /\ forallb (fun e => negb (is_request e)) rest = true
       /\ (List.length (speech_inputs rest) <= 1)%nat.
Proof.
  explore_run rt;
    (split; [reflexivity|]);
    eexists; (split; [reflexivity|]);
    (split; [reflexivity | cbn; lia]).
Qed.

(** X7: whatever the services answer, a run starts a player at most once,
    as its last effect, and only for the file it has streamed the audio
    to and whose path it has printed; the player is the one
    [play_audio] starts for that file on the host. *)
Theorem playback_last_and_of_written_file
  (rt : Runtime) (mock_call_text : string) (caller_id : option string)
  (call_type : string) (st : state (Path rt)) :
  exists before,
    forallb (fun e => negb (is_playback e)) before = true
    /\ (trace (snd (screen_mock_call rt mock_call_text caller_id call_type st))
        = (trace st ++ before)%list
        \/ (In (StreamToFile (default_audio_path rt)) before
            /\ In (saved_event rt (default_audio_path rt)) before
            /\ exists e,
                 trace (snd (screen_mock_call rt mock_call_text caller_id
                               call_type st))
                 = (trace st ++ before ++ [e])%list
                 /\ forall st',
                      trace (snd (play_audio rt (default_audio_path rt) st'))
                      = (trace st' ++ [e])%list)).
Proof.
  explore_run rt;
    first
      [ solve [refine (ex_intro _ _ (conj _ (or_introl eq_refl))); reflexivity]
      | lazymatch goal with
        | |- exists before, _ /\ ((trace st ++ ?flat)%list = _ \/ _) =>
            exists (removelast flat)
        end;
        split; [reflexivity|]; right;
        split; [cbn; tauto|]; split; [cbn; tauto|];
        eexists; split; [reflexivity|];
        intros st'; unfold play_audio, perform;
        rewrite ?HD, ?HW; reflexivity ].
Qed.

(** ** What the program never does *)

Lemma emits_ret {Path A : Type} (P : event Path -> Prop) (a : A) :
  emits P (ret a).
Proof. intros st. exists []. cbn. now rewrite app_nil_r. Qed.

Lemma emits_raise {Path A : Type} (P : event Path -> Prop) (e : exn) :
  emits P (@raise Path A e).
Proof. intros st. exists []. cbn. now rewrite app_nil_r. Qed.

Lemma emits_lift {Path A : Type} (P : event Path -> Prop) (x : result A) :
  emits P (lift x).
Proof. intros st. exists []. cbn. now rewrite app_nil_r. Qed.

Lemma emits_new {Path : Type} (P : event Path -> Prop) (c : CallContext) :
  emits P (new c).
Proof. intros st. exists []. cbn. now rewrite app_nil_r. Qed.

Lemma emits_deref {Path : Type} (P : event Path -> Prop) (r : ref) :
  emits P (deref r).
Proof.
  intros st. exists []. unfold deref.
  destruct (nth_error (objects st) r); cbn; now rewrite app_nil_r.
Qed.

Lemma emits_call_get {Path : Type} (P : event Path -> Prop) (obj : pyvalue)
  (key : string) (default : pyvalue) :
  emits P (call_get obj key default).
Proof. destruct obj; first [apply emits_ret | apply emits_raise]. Qed.

Lemma emits_perform {Path A : Type} (P : event Path -> Prop) (e : event Path)
  (service : list (event Path) -> result A) :
  P e -> emits P (perform e service).
Proof. intros He st. exists [e]. cbn. auto. Qed.

Lemma emits_print (rt : Runtime) (P : event (Path rt) -> Prop)
  (args : list pyvalue) :
  P (Print args) -> emits P (print rt args).
Proof. apply emits_perform. Qed.

Lemma emits_bind {Path A B : Type} (P : event Path -> Prop) (m : M Path A)
  (k : A -> M Path B) :
  emits P m -> (forall a, emits P (k a)) -> emits P (bind m k).
Proof.
  intros Hm Hk st. unfold bind.
  destruct (Hm st) as (new1 & E1 & F1).
  destruct (m st) as [[a|e] st1]; cbn in E1.
  - destruct (Hk a st1) as (new2 & E2 & F2).
    exists (new1 ++ new2)%list. rewrite E2, E1, app_assoc.
    split; [reflexivity | now apply Forall_app].
  - exists new1. now split.
Qed.

Lemma emits_try_except {Path A : Type} (P : event Path -> Prop)
  (body handler : M Path A) (caught : exn -> bool) :
  emits P body -> emits P handler -> emits P (try_except body caught handler).
Proof.
  intros Hb Hh st. unfold try_except.
  destruct (Hb st) as (new1 & E1 & F1).
  destruct (body st) as [[a|e] st1]; cbn in E1.
  - exists new1. now split.
  - destruct (caught e).
    + destruct (Hh st1) as (new2 & E2 & F2).
      exists (new1 ++ new2)%list. rewrite E2, E1, app_assoc.
      split; [reflexivity | now apply Forall_app].
    + exists new1. now split.
Qed.

Create HintDb effects.

#[export] Hint Resolve emits_ret emits_raise emits_lift emits_new
  emits_deref emits_call_get emits_bind emits_try_except : effects.

Section Permitted.

Variable rt : Runtime.

Lemma permitted_print (args : list pyvalue) :
  emits (permitted rt) (print rt args).
Proof. apply emits_print. exact I. Qed.

Lemma permitted_call_build_ai_input (text : string) (context : ref) :
  emits (permitted rt) (call_build_ai_input rt text context).
Proof.
  unfold call_build_ai_input.
  apply emits_bind; [auto with effects|]. intros c.
  destruct (int_str_raises _ _); auto with effects.
Qed.

Lemma permitted_send_to_openai (prompt : string) :
  emits (permitted rt) (send_to_openai rt prompt).
Proof. apply emits_perform. now split. Qed.

Lemma permitted_speak_with_openai (text : pyvalue) (filename : option string) :
  emits (permitted rt) (speak_with_openai rt text filename).
Proof.
  unfold speak_with_openai.
  apply emits_bind; [apply emits_perform; cbn; auto|intros _].
  apply emits_bind; [apply emits_perform; cbn; eauto|intros _].
  apply emits_ret.
Qed.

Lemma permitted_play_audio (audio_path : Path rt) :
  emits (permitted rt) (play_audio rt audio_path).
Proof.
  unfold play_audio.
  destruct (String.eqb_spec (platform_system rt) "Darwin") as [HD|HD].
  - apply emits_perform. cbn. split; [reflexivity|].
    exists audio_path. left. now split.
  - destruct (String.eqb_spec (platform_system rt) "Windows") as [HW|HW].
    + apply emits_perform. cbn. split; [exact HW|]. now exists audio_path.
    + apply emits_perform. cbn. split; [reflexivity|].
      exists audio_path. right. now repeat split.
Qed.

Lemma permitted_parse_response (text : string) :
  emits (permitted rt) (parse_response rt text).
Proof.
  unfold parse_response.
  apply emits_try_except; [apply emits_lift|].
  repeat (apply emits_bind; [apply permitted_print | intros _]).
  apply emits_ret.
Qed.

Lemma permitted_screen_mock_call (text : string) (caller_id : option string)
  (call_type : string) :
  emits (permitted rt) (screen_mock_call rt text caller_id call_type).
Proof.
  unfold screen_mock_call, select_spoken_line.
  repeat (apply emits_bind;
          [ first [ apply permitted_print
                  | apply permitted_call_build_ai_input
                  | apply permitted_send_to_openai
                  | apply permitted_parse_response
                  | apply permitted_speak_with_openai
                  | auto with effects ]
          | intros ? ]).
  apply permitted_play_audio.
Qed.

Lemma permitted_run (op : operation rt) (st : state (Path rt)) :
  exists new,
    trace (run rt op st) = (trace st ++ new)%list
    /\ Forall (permitted rt) new.
Proof.
  destruct op; cbn [run].
  - apply permitted_call_build_ai_input.
  - apply permitted_send_to_openai.
  - apply permitted_speak_with_openai.
  - apply permitted_play_audio.
  - apply permitted_screen_mock_call.
Qed.

End Permitted.

(** X8: whatever operations of the program run, in whatever order and
    with whatever outcome, the effects so far stay as they were and every
    effect added is one the program allows itself: a print; a
    classification request to "gpt-5.1" under [BASE_INSTRUCTIONS]; a
    speech request to "gpt-4o-mini-tts" with the voice "alloy" and the
    fixed tone instruction; a stream to a file of its own directory; the
    player of the host and no other ([afplay] on "Darwin" only,
    [os.startfile] on "Windows" only, [xdg-open] elsewhere only), with one
    argument and never with [check=True]. *)
Theorem effects_permitted
  (rt : Runtime) (ops : list (operation rt)) (st : state (Path rt)) :
  exists new,
    trace (run_all rt ops st) = (trace st ++ new)%list
    /\ Forall (permitted rt) new.
Proof.
  unfold run_all. revert st.
  induction ops as [|op ops IH]; intros st; cbn [fold_left].
  - exists []. now rewrite app_nil_r.
  - destruct (permitted_run rt op st) as (new1 & E1 & F1).
    destruct (IH (run rt op st)) as (new2 & E2 & F2).
    exists (new1 ++ new2)%list. rewrite E2, E1, app_assoc.
    split; [reflexivity | now apply Forall_app].
Qed.

(** ** Errors of single steps *)

(** X9: the parsing step never raises [JSONDecodeError].  When it raises,
    the exception is another one, it is the one [json.loads] raised, and
    nothing was printed. *)
Theorem parse_response_raises_only_uncaught
  (rt : Runtime) (ai_response_text : string) (st st' : state (Path rt))
  (e : exn) :
  parse_response rt ai_response_text st = (Raise e, st') ->
  is_JSONDecodeError e = false
  /\ json_loads rt ai_response_text = Raise e
  /\ st' = st.
Proof.
  unfold parse_response, try_except, lift.
  destruct (json_loads rt ai_response_text) as [v|[]]; cbn;
    intros H; try discriminate; injection H as <- <-; auto.
Qed.

(** A decoder that gives up on deep nesting. *)
Lemma parse_response_raises_only_uncaught_witness :
  is_JSONDecodeError (RaisedBy "RecursionError") = false
  /\ limited_loads 3 "[[[[1]]]]" = Raise (RaisedBy "RecursionError")
  /\ initial_state string = initial_state string.
Proof.
  apply (parse_response_raises_only_uncaught
           (scripted_runtime "Linux" (limited_loads 3) (Ok "[[[[1]]]]")
              (Ok tt) (Ok tt))
           "[[[[1]]]]" (initial_state string) (initial_state string)
           (RaisedBy "RecursionError")).
  reflexivity.
Defined.

(** X10: the speech synthesizer raises nothing of its own.  When it
    raises, either the speech request failed, and then nothing was
    streamed, or the streaming failed; the exception is the one of the
    service. *)
Theorem speak_with_openai_raises_as_service
  (rt : Runtime) (text : pyvalue) (filename : option string)
  (st st' : state (Path rt)) (e : exn) :
  speak_with_openai rt text filename st = (Raise e, st') ->
  (speech_create rt (trace st) "gpt-4o-mini-tts" "alloy" text
     "Speak clearly, calmly, and politely." = Raise e
   /\ st' = log st [speech_event text])
  \/ (stream_to_file rt (trace st ++ [speech_event text])%list
        (joinpath rt (module_dir rt) (filename_or_default filename))
      = Raise e
      /\ st' = log st [speech_event text;
                       StreamToFile
                         (joinpath rt (module_dir rt)
                            (filename_or_default filename))]).
Proof.
  unfold speak_with_openai, bind, perform, ret, log, speech_event. cbn.
  destruct (speech_create rt _ _ _ _ _) as [[]|e1].
  - destruct (stream_to_file rt _ _) as [[]|e2] eqn:Hstream;
      [discriminate|].
    intros H. injection H as <- <-. right.
    split; [reflexivity | now rewrite <- app_assoc].
  - intros H. injection H as <- <-. left. now split.
Qed.

(** A stream that breaks. *)
Lemma speak_with_openai_raises_as_service_witness :
  speak_with_openai
    (scripted_runtime "Linux" Json.loads (Ok "{}") (Ok tt)
       (Raise (RaisedBy "OSError")))
    (PyStr "Goodbye.") (Some "reply.mp3") (initial_state string)
  = (Raise (RaisedBy "OSError"),
     log (initial_state string)
       [speech_event (PyStr "Goodbye."); StreamToFile "/srv/app/reply.mp3"])
  /\ stream_to_file
       (scripted_runtime "Linux" Json.loads (Ok "{}") (Ok tt)
          (Raise (RaisedBy "OSError")))
       [speech_event (PyStr "Goodbye.")] "/srv/app/reply.mp3"
     = Raise (RaisedBy "OSError").
Proof.
  split; [reflexivity|].
  destruct (speak_with_openai_raises_as_service
              (scripted_runtime "Linux" Json.loads (Ok "{}") (Ok tt)
                 (Raise (RaisedBy "OSError")))
              (PyStr "Goodbye.") (Some "reply.mp3") (initial_state string)
              (log (initial_state string)
                 [speech_event (PyStr "Goodbye.");
                  StreamToFile "/srv/app/reply.mp3"])
              (RaisedBy "OSError") eq_refl) as [[H _]|[H _]].
  - discriminate H.
  - exact H.
Defined.

(** ** More on the prompt *)

(** X11: a caller identifier that is given and not empty stands in the
    Caller ID field as it is, right after the header of the prompt. *)
Theorem given_caller_id_rendered_verbatim
  (mock_call_text caller kind : string) (age : Z) :
  caller <> "" ->
  exists rest,
    build_ai_input mock_call_text
      {| caller_id := Some caller; call_type := kind; user_age := age |}
    = prompt_header age ++ caller ++ nl ++ "- Call type: " ++ kind ++ rest.
Proof.
  intros Hne.
  destruct (build_ai_input_caller_field mock_call_text
              {| caller_id := Some caller; call_type := kind;
                 user_age := age |}) as (rest & H).
  exists rest. rewrite H. cbn [caller_id user_age call_type].
  destruct caller; [contradiction|reflexivity].
Qed.

(** The caller of the entry point. *)
Lemma given_caller_id_rendered_verbatim_witness :
  exists rest,
    build_ai_input mock_call
      {| caller_id := Some "+353 83 123 4567"; call_type := "incoming";
         user_age := 79 |}
    = prompt_header 79 ++ "+353 83 123 4567" ++ nl
      ++ "- Call type: " ++ "incoming" ++ rest.
Proof.
  apply (given_caller_id_rendered_verbatim mock_call "+353 83 123 4567"
           "incoming" 79).
  discriminate.
Defined.

(** X12: the transcript stands between its delimiters unescaped, and
    what follows it is one fixed text, the same for every transcript and
    every context: the tasks and the JSON keys asked for.  That text
    names the key the run later looks up, and quotes the fallback line as
    its example of a spoken response. *)
Theorem transcript_before_fixed_instructions :
  exists after,
    (forall context, exists before, forall mock_call_text,
        build_ai_input mock_call_text context
        = before ++ (dq ++ dq ++ dq ++ mock_call_text ++ dq ++ dq ++ dq)
          ++ after)
    /\ Substring ("- " ++ SPOKEN_KEY ++ nl) after
    /\ Substring (quoted FALLBACK_LINE) after.
Proof.
  eexists. split.
  - intros context. eexists. intros text. unfold build_ai_input.
    match goal with
    | |- join nl ?l = _ =>
        change l with ((firstn 18 l) ++ (nth 18 l "") :: (skipn 19 l))%list
    end.
    cbn [firstn skipn nth].
    rewrite join_around. reflexivity.
  - split; apply contains_iff; vm_compute; reflexivity.
Qed.

(** ** The console *)

(** X13: a text of the services that the console cannot encode ends the
    run with [UnicodeEncodeError] at the print of that text.  For the raw
    answer this is before the answer is decoded; for the line chosen from
    a decoded object it is before the speech request.  In both cases
    nothing is spoken and nothing is played. *)
Theorem unprintable_text_stops_run
  (rt : Runtime) (mock_call_text : string) (caller_id : option string)
  (call_type reply : string) (st : state (Path rt)) :
  responses_create rt (trace st) "gpt-5.1" BASE_INSTRUCTIONS
    (build_ai_input mock_call_text (screened_context caller_id call_type))
  = Ok reply ->
  (can_print rt [PyStr reply] = false ->
   screen_mock_call rt mock_call_text caller_id call_type st
   = (Raise UnicodeEncodeError,
      {| objects := (objects st ++ [screened_context caller_id call_type])%list;
         trace := (trace st
                   ++ [request_event mock_call_text caller_id call_type;
                       Print [PyStr (nl ++ "===== RAW AI RESPONSE TEXT =====")];
                       Print [PyStr reply]])%list |}))
  /\ (forall entries,
         can_print rt [PyStr reply] = true ->
         json_loads rt reply = Ok (PyDict entries) ->
         can_print rt [PyStr "AI wants to say to the caller:";
                       dict_get entries SPOKEN_KEY (PyStr FALLBACK_LINE)]
         = false ->
         screen_mock_call rt mock_call_text caller_id call_type st
         = (Raise UnicodeEncodeError,
            {| objects := (objects st
                           ++ [screened_context caller_id call_type])%list;
               trace := (trace st
                         ++ request_event mock_call_text caller_id call_type
                            :: banner reply
                            ++ [announce (dict_get entries SPOKEN_KEY
                                            (PyStr FALLBACK_LINE))])%list |})).
Proof.
  intros Hreply. split.
  - intros Hraw. now rewrite screen_mock_call_cases, Hreply, Hraw.
  - intros entries Hraw Hloads Hline.
    rewrite screen_mock_call_cases, Hreply, Hraw. unfold bind.
    rewrite resolve_spoken_line_cases, Hloads, speak_and_play_cases, Hline.
    unfold log. cbn [trace objects]. now rewrite <- !app_assoc.
Qed.

(** An accent on a console that encodes ASCII only, and a lone surrogate
    as the spoken line on a UTF-8 console. *)
Lemma unprintable_text_stops_run_witness :
  fst (screen_mock_call
         (on_ascii_console (reference_runtime "Linux" reply_with_accent))
         "Hello" None "incoming" (initial_state string))
  = Raise UnicodeEncodeError
  /\ fst (screen_mock_call (reference_runtime "Linux" reply_with_surrogate)
            "Hello" None "incoming" (initial_state string))
     = Raise UnicodeEncodeError.
Proof.
  split.
  - rewrite (proj1 (unprintable_text_stops_run
                      (on_ascii_console
                         (reference_runtime "Linux" reply_with_accent))
                      "Hello" None "incoming" reply_with_accent
                      (initial_state string) eq_refl) eq_refl).
    reflexivity.
  - rewrite (proj2 (unprintable_text_stops_run
                      (reference_runtime "Linux" reply_with_surrogate)
                      "Hello" None "incoming" reply_with_surrogate
                      (initial_state string) eq_refl)
               [("spoken_response_to_caller",
                 PyStr (Json.utf8 55296))]
               eq_refl eq_refl eq_refl).
    reflexivity.
Defined.
